(** * JoystickXL input processing: buttons, axes and hat switches

    A shallow embedding of [joystick_xl/inputs.py] and the properties of its
    three input kinds.  Python integers are [Z], Python booleans are [bool],
    objects are records, and a method that mutates [self] or may raise is a
    function from the object to an outcome paired with the object afterwards. *)

From Stdlib Require Import ZArith Bool List String Lia.
Import ListNotations.
Local Open Scope Z_scope.

(** ** Python runtime *)

Inductive Exception : Type :=
| TypeError (msg : string)
| ZeroDivisionError.

Inductive Result (A : Type) : Type :=
| Ok (a : A)
| Raise (e : Exception).

Arguments Ok {A} a.
Arguments Raise {A} e.

(** [a // b]: floor division, raising on a zero divisor. *)
Definition floordiv (a b : Z) : Result Z :=
  if b =? 0 then Raise ZeroDivisionError else Ok (a / b).

(** [x != y] on booleans. *)
Definition bool_ne (x y : bool) : bool := negb (Bool.eqb x y).

(** ** CircuitPython built-ins

    A [Pin] is an opaque identifier.  The electrical state of the board is
    outside the program: a [Board] gives the level every digital pin and the
    sample every analog pin would return when read.  One method call sees one
    board. *)

Definition Pin : Type := nat.

Record Board : Type := {
  digital_level : Pin -> bool;
  analog_level : Pin -> Z
}.

Inductive Direction : Type := INPUT | OUTPUT.

Inductive Pull : Type := UP | DOWN.

Record DigitalInOut : Type := {
  dio_pin : Pin;
  direction : Direction;
  pull : option Pull
}.

Record AnalogIn : Type := { ain_pin : Pin }.

(** ** [VirtualInput] *)

Module VirtualInput.

Record t (V : Type) : Type := { value : V }.

Arguments value {V} _.

Definition __init__ {V : Type} (v : V) : t V := {| value := v |}.

End VirtualInput.

(** A source is a peripheral object or a [VirtualInput]. *)
Inductive Source (H V : Type) : Type :=
| Peripheral (h : H)
| Virtual (v : VirtualInput.t V).

Arguments Peripheral {H V} h.
Arguments Virtual {H V} v.

Definition DigitalSource : Type := Source DigitalInOut bool.
Definition AnalogSource : Type := Source AnalogIn Z.

(** [isinstance(source, VirtualInput)] *)
Definition isinstance_VirtualInput {H V : Type} (s : Source H V) : bool :=
  match s with
  | Virtual _ => true
  | Peripheral _ => false
  end.

(** [source.value] for a digital and for an analog source. *)
Definition digital_value (hw : Board) (s : DigitalSource) : bool :=
  match s with
  | Peripheral d => digital_level hw (dio_pin d)
  | Virtual v => VirtualInput.value v
  end.

Definition analog_value (hw : Board) (s : AnalogSource) : Z :=
  match s with
  | Peripheral a => analog_level hw (ain_pin a)
  | Virtual v => VirtualInput.value v
  end.

(** [source.value = v], reached only after the [isinstance] test. *)
Definition assign_value {H V : Type} (s : Source H V) (v : V) : Source H V :=
  match s with
  | Virtual _ => Virtual {| VirtualInput.value := v |}
  | Peripheral h => Peripheral h
  end.

(** The argument is a pin ([Some]) or anything else ([None]). *)
Definition _initialize_digital_source (pin : option Pin) (active_low : bool)
  : DigitalSource :=
  match pin with
  | Some p =>
      let source := {| dio_pin := p; direction := INPUT; pull := None |} in
      let source := {| dio_pin := dio_pin source; direction := INPUT;
                       pull := pull source |} in
      let source :=
        if active_low
        then {| dio_pin := dio_pin source; direction := direction source;
                pull := Some UP |}
        else {| dio_pin := dio_pin source; direction := direction source;
                pull := Some DOWN |} in
      Peripheral source
  | None => Virtual (VirtualInput.__init__ active_low)
  end.

Definition _initialize_analog_source (pin : option Pin) : AnalogSource :=
  match pin with
  | Some p => Peripheral {| ain_pin := p |}
  | None => Virtual (VirtualInput.__init__ 32768)
  end.

Definition set_error : Exception :=
  TypeError "Only VirtualInput source values can be set manually.".

(** ** [Button] *)

Module Button.

Record t : Type := {
  _source : DigitalSource;
  _active_low : bool
}.

Definition value (hw : Board) (self : t) : bool :=
  bool_ne (digital_value hw self.(_source)) self.(_active_low).

Definition source_value (hw : Board) (self : t) : bool :=
  Bool.eqb (digital_value hw self.(_source)) true.

Definition set_source_value (v : bool) (self : t) : Result unit * t :=
  if negb (isinstance_VirtualInput self.(_source))
  then (Raise set_error, self)
  else (Ok tt, {| _source := assign_value self.(_source) v;
                  _active_low := self.(_active_low) |}).

Definition active_low (self : t) : bool := self.(_active_low).

Definition __init__ (source : option Pin) (active_low : bool) : t :=
  {| _source := _initialize_digital_source source active_low;
     _active_low := active_low |}.

(** The calls a client makes on a button. *)
Inductive call : Type :=
| Get_value
| Set_source_value (v : bool).

Inductive outcome : Type :=
| Returned (v : bool)
| Assigned
| Raised (e : Exception).

Definition step (hw : Board) (c : call) (self : t) : outcome * t :=
  match c with
  | Get_value => (Returned (value hw self), self)
  | Set_source_value v =>
      match set_source_value v self with
      | (Ok _, self') => (Assigned, self')
      | (Raise e, self') => (Raised e, self')
      end
  end.

End Button.

(** ** [Axis] *)

Module Axis.

Definition X : Z := 0.
Definition Y : Z := 1.
Definition Z_ : Z := 2.
Definition RX : Z := 3.
Definition RY : Z := 4.
Definition RZ : Z := 5.
Definition S0 : Z := 6.
Definition S1 : Z := 7.

Record t : Type := {
  _source : AnalogSource;
  _deadband : Z;
  _min : Z;
  _max : Z;
  _invert : Z;
  _value : Z;
  _last_source_value : Z;
  _raw_midpoint : Z;
  _db_range : Z
}.

(** [self._value = v] *)
Definition set__value (self : t) (v : Z) : t :=
  {| _source := self.(_source);
     _deadband := self.(_deadband);
     _min := self.(_min);
     _max := self.(_max);
     _invert := self.(_invert);
     _value := v;
     _last_source_value := self.(_last_source_value);
     _raw_midpoint := self.(_raw_midpoint);
     _db_range := self.(_db_range) |}.

(** [self._source.value = v] *)
Definition set__source_value (self : t) (v : Z) : t :=
  {| _source := assign_value self.(_source) v;
     _deadband := self.(_deadband);
     _min := self.(_min);
     _max := self.(_max);
     _invert := self.(_invert);
     _value := self.(_value);
     _last_source_value := self.(_last_source_value);
     _raw_midpoint := self.(_raw_midpoint);
     _db_range := self.(_db_range) |}.

(** The body of [_update] below the early return: clamp, deadband, scale,
    as a function of the sample read. *)
Definition scaled (self : t) (raw : Z) : Result Z :=
  let new_value := Z.min (Z.max raw self.(_min)) self.(_max) in
  let new_value :=
    if new_value <? self.(_raw_midpoint) - self.(_deadband)
    then new_value - self.(_min)
    else if new_value >? self.(_raw_midpoint) + self.(_deadband)
    then new_value - (self.(_min) - self.(_deadband) * 2)
    else self.(_db_range) / 2 in
  match floordiv (new_value * 255) self.(_db_range) with
  | Ok q => Ok (Z.min (Z.max (q - 127) (-127)) 127 * self.(_invert))
  | Raise e => Raise e
  end.

Definition _update (hw : Board) (self : t) : Result Z * t :=
  let raw := analog_value hw self.(_source) in
  if raw =? self.(_last_source_value)
  then (Ok self.(_value), self)
  else
    match scaled self raw with
    | Ok v => (Ok v, set__value self v)
    | Raise e => (Raise e, self)
    end.

Definition value (hw : Board) (self : t) : Result Z * t := _update hw self.

Definition source_value (hw : Board) (self : t) : Z :=
  analog_value hw self.(_source).

Definition set_source_value (v : Z) (self : t) : Result unit * t :=
  if isinstance_VirtualInput self.(_source)
  then (Ok tt, set__source_value self v)
  else (Raise set_error, self).

Definition min (self : t) : Z := self.(_min).
Definition max (self : t) : Z := self.(_max).
Definition deadband (self : t) : Z := self.(_deadband).
Definition invert (self : t) : bool := self.(_invert) <? 0.

Definition __init__ (hw : Board) (source : option Pin)
  (deadband min max : Z) (invert : bool) : Result t :=
  let self :=
    {| _source := _initialize_analog_source source;
       _deadband := deadband;
       _min := min;
       _max := max;
       _invert := if invert then -1 else 1;
       _value := 0;
       _last_source_value := 0;
       _raw_midpoint := min + (max - min) / 2;
       _db_range := max - min - deadband * 2 |} in
  match _update hw self with
  | (Ok _, self') => Ok self'
  | (Raise e, _) => Raise e
  end.

(** [Axis()]: every parameter at its default. *)
Definition default (hw : Board) : Result t :=
  __init__ hw None 0 0 65535 false.

(** The calls a client makes on an axis. *)
Inductive call : Type :=
| Get_value
| Set_source_value (v : Z).

Inductive outcome : Type :=
| Returned (v : Z)
| Assigned
| Raised (e : Exception).

Definition step (hw : Board) (c : call) (self : t) : outcome * t :=
  match c with
  | Get_value =>
      match value hw self with
      | (Ok v, self') => (Returned v, self')
      | (Raise e, self') => (Raised e, self')
      end
  | Set_source_value v =>
      match set_source_value v self with
      | (Ok _, self') => (Assigned, self')
      | (Raise e, self') => (Raised e, self')
      end
  end.

(** The axes a program can hold: built by the constructor, then used through
    [value] and the [source_value] setter, the board changing freely. *)
Inductive reachable : t -> Prop :=
| reach_init hw source deadband min max invert self :
    __init__ hw source deadband min max invert = Ok self ->
    reachable self
| reach_step hw c self :
    reachable self ->
    reachable (snd (step hw c self)).

End Axis.

(** ** [Hat] *)

Module Hat.

Definition U : Z := 0.
Definition UR : Z := 1.
Definition R : Z := 2.
Definition DR : Z := 3.
Definition D : Z := 4.
Definition DL : Z := 5.
Definition L : Z := 6.
Definition UL : Z := 7.
Definition IDLE : Z := 8.

Record t : Type := {
  _up : DigitalSource;
  _down : DigitalSource;
  _left : DigitalSource;
  _right : DigitalSource;
  _active_low : bool;
  _value : Z
}.

Definition active_low (self : t) : bool := self.(_active_low).

Definition up (hw : Board) (self : t) : bool :=
  bool_ne (digital_value hw self.(_up)) self.(_active_low).

Definition up_source_value (hw : Board) (self : t) : bool :=
  Bool.eqb (digital_value hw self.(_up)) true.

Definition set_up_source_value (v : bool) (self : t) : Result unit * t :=
  if negb (isinstance_VirtualInput self.(_up))
  then (Raise set_error, self)
  else (Ok tt, {| _up := assign_value self.(_up) v;
                  _down := self.(_down);
                  _left := self.(_left);
                  _right := self.(_right);
                  _active_low := self.(_active_low);
                  _value := self.(_value) |}).

Definition down (hw : Board) (self : t) : bool :=
  bool_ne (digital_value hw self.(_down)) self.(_active_low).

Definition down_source_value (hw : Board) (self : t) : bool :=
  Bool.eqb (digital_value hw self.(_down)) true.

Definition set_down_source_value (v : bool) (self : t) : Result unit * t :=
  if negb (isinstance_VirtualInput self.(_down))
  then (Raise set_error, self)
  else (Ok tt, {| _up := self.(_up);
                  _down := assign_value self.(_down) v;
                  _left := self.(_left);
                  _right := self.(_right);
                  _active_low := self.(_active_low);
                  _value := self.(_value) |}).

Definition left (hw : Board) (self : t) : bool :=
  bool_ne (digital_value hw self.(_left)) self.(_active_low).

Definition left_source_value (hw : Board) (self : t) : bool :=
  Bool.eqb (digital_value hw self.(_left)) true.

Definition set_left_source_value (v : bool) (self : t) : Result unit * t :=
  if negb (isinstance_VirtualInput self.(_left))
  then (Raise set_error, self)
  else (Ok tt, {| _up := self.(_up);
                  _down := self.(_down);
                  _left := assign_value self.(_left) v;
                  _right := self.(_right);
                  _active_low := self.(_active_low);
                  _value := self.(_value) |}).

Definition right (hw : Board) (self : t) : bool :=
  bool_ne (digital_value hw self.(_right)) self.(_active_low).

Definition right_source_value (hw : Board) (self : t) : bool :=
  Bool.eqb (digital_value hw self.(_right)) true.

Definition set_right_source_value (v : bool) (self : t) : Result unit * t :=
  if negb (isinstance_VirtualInput self.(_right))
  then (Raise set_error, self)
  else (Ok tt, {| _up := self.(_up);
                  _down := self.(_down);
                  _left := self.(_left);
                  _right := assign_value self.(_right) v;
                  _active_low := self.(_active_low);
                  _value := self.(_value) |}).

(** [self._value = v] *)
Definition set__value (self : t) (v : Z) : t :=
  {| _up := self.(_up);
     _down := self.(_down);
     _left := self.(_left);
     _right := self.(_right);
     _active_low := self.(_active_low);
     _value := v |}.

Definition _update (hw : Board) (self : t) : Z * t :=
  let U_ := up hw self in
  let D_ := down hw self in
  let L_ := left hw self in
  let R_ := right hw self in
  let self :=
    if U_ && R_ then set__value self UR
    else if U_ && L_ then set__value self UL
    else if U_ then set__value self U
    else if D_ && R_ then set__value self DR
    else if D_ && L_ then set__value self DL
    else if D_ then set__value self D
    else if L_ then set__value self L
    else if R_ then set__value self R
    else set__value self IDLE in
  (self.(_value), self).

Definition value (hw : Board) (self : t) : Z * t := _update hw self.

Definition __init__ (hw : Board) (up down left right : option Pin)
  (active_low : bool) : t :=
  let self :=
    {| _up := _initialize_digital_source up active_low;
       _down := _initialize_digital_source down active_low;
       _left := _initialize_digital_source left active_low;
       _right := _initialize_digital_source right active_low;
       _active_low := active_low;
       _value := IDLE |} in
  snd (_update hw self).

(** The four directions of a hat. *)
Inductive direction : Type := Up | Down | Left | Right.

Definition source (d : direction) (self : t) : DigitalSource :=
  match d with
  | Up => self.(_up)
  | Down => self.(_down)
  | Left => self.(_left)
  | Right => self.(_right)
  end.

Definition pressed (d : direction) (hw : Board) (self : t) : bool :=
  match d with
  | Up => up hw self
  | Down => down hw self
  | Left => left hw self
  | Right => right hw self
  end.

Definition get_source_value (d : direction) (hw : Board) (self : t) : bool :=
  match d with
  | Up => up_source_value hw self
  | Down => down_source_value hw self
  | Left => left_source_value hw self
  | Right => right_source_value hw self
  end.

Definition set_source_value (d : direction) (v : bool) (self : t)
  : Result unit * t :=
  match d with
  | Up => set_up_source_value v self
  | Down => set_down_source_value v self
  | Left => set_left_source_value v self
  | Right => set_right_source_value v self
  end.

(** The calls a client makes on a hat. *)
Inductive call : Type :=
| Get_value
| Set_source_value (d : direction) (v : bool).

Inductive outcome : Type :=
| Returned (v : Z)
| Assigned
| Raised (e : Exception).

Definition step (hw : Board) (c : call) (self : t) : outcome * t :=
  match c with
  | Get_value => let (v, self') := value hw self in (Returned v, self')
  | Set_source_value d v =>
      match set_source_value d v self with
      | (Ok _, self') => (Assigned, self')
      | (Raise e, self') => (Raised e, self')
      end
  end.

End Hat.

(** ** Traces

    A trace is a sequence of calls, each with the board as it stands when the
    call is made; [run] gives the outcome of every call and the object
    afterwards. *)

Fixpoint run {S C O : Type} (step : Board -> C -> S -> O * S)
  (trace : list (Board * C)) (self : S) : list O * S :=
  match trace with
  | [] => ([], self)
  | (hw, c) :: trace' =>
      let (o, self') := step hw c self in
      let (os, self'') := run step trace' self' in
      (o :: os, self'')
  end.

(** ** The decode table as the specification words it

    Rows are tried from the top; the first row whose condition holds gives
    the position, and IDLE is the result when none does. *)

Record row : Type := {
  condition : bool -> bool -> bool -> bool -> bool;
  result : Z
}.

Definition decode_table : list row :=
  [ {| condition := fun up _ _ right => up && right; result := Hat.UR |};
    {| condition := fun up _ left _ => up && left; result := Hat.UL |};
    {| condition := fun up _ _ _ => up; result := Hat.U |};
    {| condition := fun _ down _ right => down && right; result := Hat.DR |};
    {| condition := fun _ down left _ => down && left; result := Hat.DL |};
    {| condition := fun _ down _ _ => down; result := Hat.D |};
    {| condition := fun _ _ left _ => left; result := Hat.L |};
    {| condition := fun _ _ _ right => right; result := Hat.R |} ].

Fixpoint first_match (rows : list row) (up down left right : bool) : Z :=
  match rows with
  | [] => Hat.IDLE
  | r :: rows' =>
      if condition r up down left right then result r
      else first_match rows' up down left right
  end.

Definition decode (up down left right : bool) : Z :=
  first_match decode_table up down left right.

(** ** The scaling algorithm as the specification words it

    Clamp to [min, max]; remove the deadband; map linearly and clamp to
    [-127, 127]; apply the inversion sign.  [None] when the scale range is
    zero. *)

Definition clamp (x lo hi : Z) : Z := Z.min (Z.max x lo) hi.

Definition scaling (min max deadband sign : Z) (raw : Z) : option Z :=
  let midpoint := min + (max - min) / 2 in
  let scale_range := (max - min) - 2 * deadband in
  let clamped := clamp raw min max in
  let v :=
    if clamped <? midpoint - deadband then clamped - min
    else if midpoint + deadband <? clamped then clamped - (min - 2 * deadband)
    else scale_range / 2 in
  if scale_range =? 0 then None
  else Some (clamp (v * 255 / scale_range - 127) (-127) 127 * sign).

Definition sign_of (a : Axis.t) : Z := if Axis.invert a then -1 else 1.

(** A board on which every pin is low and every analog sample is [0]. *)
Definition quiet : Board :=
  {| digital_level := fun _ => false; analog_level := fun _ => 0 |}.

(** On [quiet], with the same board at every call. *)
Definition on_quiet {C : Type} (cs : list C) : list (Board * C) :=
  map (fun c => (quiet, c)) cs.

(** ** Configuration and frames *)

(** The spec's derived constants, from the accessors. *)
Definition midpoint (a : Axis.t) : Z :=
  Axis.min a + (Axis.max a - Axis.min a) / 2.

Definition scale_range (a : Axis.t) : Z :=
  (Axis.max a - Axis.min a) - 2 * Axis.deadband a.

(** Inside the deadband window: [|r - midpoint| <= deadband]. *)
Definition in_deadband (a : Axis.t) (r : Z) : Prop :=
  Z.abs (r - midpoint a) <= Axis.deadband a.

(** What the read-only accessors of an axis show. *)
Definition axis_config (a : Axis.t) : Z * Z * Z * bool :=
  (Axis.min a, Axis.max a, Axis.deadband a, Axis.invert a).

(** A source after some calls, against the source before: a peripheral is
    the same object, a virtual input is still a virtual input. *)
Definition source_frame {H V : Type} (s s' : Source H V) : Prop :=
  match s with
  | Peripheral h => s' = Peripheral h
  | Virtual _ => isinstance_VirtualInput s' = true
  end.

(** What holds of every axis a program can hold. *)
Definition axis_inv (a : Axis.t) : Prop :=
  Axis._last_source_value a = 0 /\
  -127 <= Axis._value a <= 127 /\
  (Axis._invert a = 1 \/ Axis._invert a = -1) /\
  Axis._raw_midpoint a = midpoint a /\
  Axis._db_range a = scale_range a.

(** Everything of an axis but the virtual cell and the cached value. *)
Definition axis_frame (a a' : Axis.t) : Prop :=
  source_frame (Axis._source a) (Axis._source a') /\
  Axis._deadband a' = Axis._deadband a /\
  Axis._min a' = Axis._min a /\
  Axis._max a' = Axis._max a /\
  Axis._invert a' = Axis._invert a /\
  Axis._last_source_value a' = Axis._last_source_value a /\
  Axis._raw_midpoint a' = Axis._raw_midpoint a /\
  Axis._db_range a' = Axis._db_range a.

Definition button_frame (b b' : Button.t) : Prop :=
  source_frame (Button._source b) (Button._source b') /\
  Button._active_low b' = Button._active_low b.

Definition hat_frame (h h' : Hat.t) : Prop :=
  source_frame (Hat._up h) (Hat._up h') /\
  source_frame (Hat._down h) (Hat._down h') /\
  source_frame (Hat._left h) (Hat._left h') /\
  source_frame (Hat._right h) (Hat._right h') /\
  Hat._active_low h' = Hat._active_low h.

(** ** Sample objects *)

(** [Axis()] once its constructor has returned. *)
Definition axis_default : Axis.t :=
  {| Axis._source := Virtual (VirtualInput.__init__ 32768);
     Axis._deadband := 0;
     Axis._min := 0;
     Axis._max := 65535;
     Axis._invert := 1;
     Axis._value := 0;
     Axis._last_source_value := 0;
     Axis._raw_midpoint := 32767;
     Axis._db_range := 65535 |}.

(** [Axis(deadband=1, min=0, max=3)] once its constructor has returned. *)
Definition axis_narrow : Axis.t :=
  {| Axis._source := Virtual (VirtualInput.__init__ 32768);
     Axis._deadband := 1;
     Axis._min := 0;
     Axis._max := 3;
     Axis._invert := 1;
     Axis._value := 127;
     Axis._last_source_value := 0;
     Axis._raw_midpoint := 1;
     Axis._db_range := 1 |}.

(** An axis after [a.source_value = v]. *)
Definition written (a : Axis.t) (v : Z) : Axis.t :=
  snd (Axis.set_source_value v a).

(** A board on which every digital pin reads [level] and every analog pin
    reads [sample]. *)
Definition board_reading (level : bool) (sample : Z) : Board :=
  {| digital_level := fun _ => level; analog_level := fun _ => sample |}.

(** [Axis(invert=True)] once its constructor has returned. *)
Definition axis_inverted : Axis.t :=
  {| Axis._source := Virtual (VirtualInput.__init__ 32768);
     Axis._deadband := 0;
     Axis._min := 0;
     Axis._max := 65535;
     Axis._invert := -1;
     Axis._value := 0;
     Axis._last_source_value := 0;
     Axis._raw_midpoint := 32767;
     Axis._db_range := 65535 |}.

(** [Axis(pin, deadband=5, min=0, max=10)] built while the pin reads [0]. *)
Definition axis_flat : Axis.t :=
  {| Axis._source := Peripheral {| ain_pin := 3%nat |};
     Axis._deadband := 5;
     Axis._min := 0;
     Axis._max := 10;
     Axis._invert := 1;
     Axis._value := 0;
     Axis._last_source_value := 0;
     Axis._raw_midpoint := 5;
     Axis._db_range := 0 |}.

(** The argument a constructor received for one direction of a hat. *)
Definition pin_of (d : Hat.direction) (up down left right : option Pin)
  : option Pin :=
  match d with
  | Hat.Up => up
  | Hat.Down => down
  | Hat.Left => left
  | Hat.Right => right
  end.

(** What a write answers on an object built on [pin]. *)
Definition write_answer (pin : option Pin) : Result unit :=
  match pin with
  | None => Ok tt
  | Some _ => Raise set_error
  end.

(** * Properties *)

(** ** Sources *)

Lemma bool_ne_xorb (x y : bool) : bool_ne x y = xorb x y.
Proof. destruct x, y; reflexivity. Qed.

Lemma bool_ne_true_iff (x y : bool) : bool_ne x y = true <-> x <> y.
Proof. destruct x, y; cbn; split; congruence. Qed.

Lemma bool_ne_same (x : bool) : bool_ne x x = false.
Proof. destruct x; reflexivity. Qed.

Lemma assign_value_read_digital hw (s : DigitalSource) (v : bool) :
  isinstance_VirtualInput s = true ->
  digital_value hw (assign_value s v) = v.
Proof. destruct s; cbn; [discriminate | reflexivity]. Qed.

Lemma assign_value_read_analog hw (s : AnalogSource) (v : Z) :
  isinstance_VirtualInput s = true ->
  analog_value hw (assign_value s v) = v.
Proof. destruct s; cbn; [discriminate | reflexivity]. Qed.

Lemma source_frame_refl {H V : Type} (s : Source H V) : source_frame s s.
Proof. destruct s; reflexivity. Qed.

Lemma source_frame_trans {H V : Type} (s1 s2 s3 : Source H V) :
  source_frame s1 s2 -> source_frame s2 s3 -> source_frame s1 s3.
Proof.
  destruct s1 as [h|c]; cbn; intros H12 H23.
  - subst s2. exact H23.
  - destruct s2; [discriminate | exact H23].
Qed.

Lemma source_frame_assign {H V : Type} (s : Source H V) (v : V) :
  source_frame s (assign_value s v).
Proof. destruct s; reflexivity. Qed.

(** ** Button *)

Section ButtonFacts.

Variable hw : Board.

(** C5.  A button is pressed exactly when the reading of its source differs
    from [active_low]; the four rows of the truth table, each row reached by
    a virtual button written with that electrical level. *)
Theorem button_value_truth_table :
  (forall b : Button.t,
      Button.value hw b = true <->
      digital_value hw (Button._source b) <> Button.active_low b) /\
  (forall b : Button.t,
      Button.value hw b =
      match digital_value hw (Button._source b), Button.active_low b with
      | false, true => true
      | true, false => true
      | false, false => false
      | true, true => false
      end) /\
  (forall electrical active_low : bool,
      let b := snd (Button.set_source_value electrical
                      (Button.__init__ None active_low)) in
      digital_value hw (Button._source b) = electrical /\
      Button.active_low b = active_low /\
      Button.value hw b = xorb electrical active_low).
Proof.
  split; [| split].
  - intro b. unfold Button.value, Button.active_low. apply bool_ne_true_iff.
  - intro b. unfold Button.value, Button.active_low.
    destruct (digital_value hw (Button._source b)), (Button._active_low b);
      reflexivity.
  - intros e al. cbn. split; [reflexivity | split; [reflexivity |]].
    unfold Button.value. cbn. apply bool_ne_xorb.
Qed.

Lemma button_set_peripheral (b : Button.t) (v : bool) :
  isinstance_VirtualInput (Button._source b) = false ->
  Button.set_source_value v b = (Raise set_error, b).
Proof. intro Hp. unfold Button.set_source_value. rewrite Hp. reflexivity. Qed.

Lemma button_set_virtual (b : Button.t) (v : bool) :
  isinstance_VirtualInput (Button._source b) = true ->
  exists b',
    Button.set_source_value v b = (Ok tt, b') /\
    Button.source_value hw b' = v /\
    Button.value hw b' = bool_ne v (Button.active_low b).
Proof.
  intro Hv. unfold Button.set_source_value. rewrite Hv. cbn [negb].
  eexists. split; [reflexivity |].
  unfold Button.source_value, Button.value, Button.active_low. cbn.
  rewrite (assign_value_read_digital hw _ v Hv).
  split; [destruct v; reflexivity | reflexivity].
Qed.

Lemma button_step_frame (c : Button.call) (b : Button.t) :
  button_frame b (snd (Button.step hw c b)).
Proof.
  destruct c as [|v]; cbn.
  - split; [apply source_frame_refl | reflexivity].
  - unfold Button.set_source_value.
    destruct (isinstance_VirtualInput (Button._source b)); cbn.
    + split; [apply source_frame_assign | reflexivity].
    + split; [apply source_frame_refl | reflexivity].
Qed.

End ButtonFacts.

Lemma button_frame_trans (b1 b2 b3 : Button.t) :
  button_frame b1 b2 -> button_frame b2 b3 -> button_frame b1 b3.
Proof.
  intros [Hs Ha] [Hs' Ha']. split.
  - eapply source_frame_trans; eassumption.
  - congruence.
Qed.

Lemma button_run_frame (trace : list (Board * Button.call)) (b : Button.t) :
  button_frame b (snd (run Button.step trace b)).
Proof.
  revert b. induction trace as [|[hw c] trace IH]; intro b; cbn [run].
  - split; [apply source_frame_refl | reflexivity].
  - pose proof (button_step_frame hw c b) as Hstep.
    destruct (Button.step hw c b) as [o b1]. cbn [snd] in Hstep.
    specialize (IH b1).
    destruct (run Button.step trace b1) as [os b2]. cbn [snd] in *.
    eapply button_frame_trans; eassumption.
Qed.

(** ** Hat *)

Section HatFacts.

Variable hw : Board.

Lemma hat_update_decode (h : Hat.t) :
  fst (Hat._update hw h) =
  decode (Hat.up hw h) (Hat.down hw h) (Hat.left hw h) (Hat.right hw h).
Proof.
  unfold Hat._update, decode.
  destruct (Hat.up hw h), (Hat.down hw h), (Hat.left hw h), (Hat.right hw h);
    reflexivity.
Qed.

(** The virtual hat whose four cells are written so that the directions
    read [u], [d], [l], [r]. *)
Lemma hat_of_directions (al u d l r : bool) :
  exists h : Hat.t,
    Hat.active_low h = al /\
    Hat.up hw h = u /\ Hat.down hw h = d /\
    Hat.left hw h = l /\ Hat.right hw h = r.
Proof.
  exists {| Hat._up := Virtual (VirtualInput.__init__ (xorb u al));
            Hat._down := Virtual (VirtualInput.__init__ (xorb d al));
            Hat._left := Virtual (VirtualInput.__init__ (xorb l al));
            Hat._right := Virtual (VirtualInput.__init__ (xorb r al));
            Hat._active_low := al;
            Hat._value := Hat.IDLE |}.
  unfold Hat.active_low, Hat.up, Hat.down, Hat.left, Hat.right. cbn.
  destruct al, u, d, l, r; cbn; repeat split; reflexivity.
Qed.

(** C4.  [Hat.value] is the first matching row of the decode table on the
    four polarity-resolved directions, for every hat and so for all 16
    combinations, each of which some hat shows; up and down together with no
    horizontal input give UP, and up with both left and right gives
    UP_RIGHT. *)
Theorem hat_value_decode_table :
  (forall h : Hat.t,
      fst (Hat.value hw h) =
      decode (Hat.up hw h) (Hat.down hw h) (Hat.left hw h) (Hat.right hw h)) /\
  (forall al u d l r : bool,
      exists h : Hat.t,
        Hat.active_low h = al /\
        Hat.up hw h = u /\ Hat.down hw h = d /\
        Hat.left hw h = l /\ Hat.right hw h = r /\
        fst (Hat.value hw h) = decode u d l r) /\
  decode true true false false = Hat.U /\
  (forall d : bool, decode true d true true = Hat.UR).
Proof.
  split; [| split; [| split]].
  - intro h. apply hat_update_decode.
  - intros al u d l r.
    destruct (hat_of_directions al u d l r) as (h & Ha & Hu & Hd & Hl & Hr).
    exists h. repeat (split; [assumption |]).
    unfold Hat.value. rewrite hat_update_decode. congruence.
  - reflexivity.
  - intro d. reflexivity.
Qed.

Lemma hat_update_frame (h : Hat.t) : hat_frame h (snd (Hat._update hw h)).
Proof.
  unfold Hat._update.
  destruct (Hat.up hw h), (Hat.down hw h), (Hat.left hw h), (Hat.right hw h);
    cbn; repeat split; apply source_frame_refl.
Qed.

Lemma hat_set_peripheral (d : Hat.direction) (h : Hat.t) (v : bool) :
  isinstance_VirtualInput (Hat.source d h) = false ->
  Hat.set_source_value d v h = (Raise set_error, h).
Proof.
  destruct d; cbn; intro Hp;
    unfold Hat.set_up_source_value, Hat.set_down_source_value,
      Hat.set_left_source_value, Hat.set_right_source_value;
    rewrite Hp; reflexivity.
Qed.

Lemma hat_set_virtual (d : Hat.direction) (h : Hat.t) (v : bool) :
  isinstance_VirtualInput (Hat.source d h) = true ->
  exists h',
    Hat.set_source_value d v h = (Ok tt, h') /\
    Hat.get_source_value d hw h' = v /\
    Hat.pressed d hw h' = bool_ne v (Hat.active_low h).
Proof.
  destruct d; cbn; intro Hv;
    unfold Hat.set_up_source_value, Hat.set_down_source_value,
      Hat.set_left_source_value, Hat.set_right_source_value;
    rewrite Hv; cbn [negb]; eexists; (split; [reflexivity |]);
    unfold Hat.up_source_value, Hat.down_source_value,
      Hat.left_source_value, Hat.right_source_value,
      Hat.up, Hat.down, Hat.left, Hat.right, Hat.active_low; cbn;
    rewrite (assign_value_read_digital hw _ v Hv);
    (split; [destruct v; reflexivity | reflexivity]).
Qed.

Lemma hat_set_frame (d : Hat.direction) (v : bool) (h : Hat.t) :
  hat_frame h (snd (Hat.set_source_value d v h)).
Proof.
  destruct d; cbn;
    unfold Hat.set_up_source_value, Hat.set_down_source_value,
      Hat.set_left_source_value, Hat.set_right_source_value;
    match goal with
    | |- context [isinstance_VirtualInput ?s] =>
        destruct (isinstance_VirtualInput s)
    end; cbn; repeat split;
    first [apply source_frame_assign | apply source_frame_refl].
Qed.

Lemma hat_step_frame (c : Hat.call) (h : Hat.t) :
  hat_frame h (snd (Hat.step hw c h)).
Proof.
  destruct c as [|d v]; unfold Hat.step.
  - unfold Hat.value. pose proof (hat_update_frame h) as Hf.
    destruct (Hat._update hw h) as [x h']. exact Hf.
  - pose proof (hat_set_frame d v h) as Hf.
    destruct (Hat.set_source_value d v h) as [[u|e] h']; exact Hf.
Qed.

End HatFacts.

Lemma hat_frame_trans (h1 h2 h3 : Hat.t) :
  hat_frame h1 h2 -> hat_frame h2 h3 -> hat_frame h1 h3.
Proof.
  intros (Hu & Hd & Hl & Hr & Ha) (Hu' & Hd' & Hl' & Hr' & Ha').
  repeat split; try (eapply source_frame_trans; eassumption); congruence.
Qed.

Lemma hat_run_frame (trace : list (Board * Hat.call)) (h : Hat.t) :
  hat_frame h (snd (run Hat.step trace h)).
Proof.
  revert h. induction trace as [|[hw c] trace IH]; intro h; cbn [run].
  - repeat split; apply source_frame_refl.
  - pose proof (hat_step_frame hw c h) as Hstep.
    destruct (Hat.step hw c h) as [o h1]. cbn [snd] in Hstep.
    specialize (IH h1).
    destruct (run Hat.step trace h1) as [os h2]. cbn [snd] in *.
    eapply hat_frame_trans; eassumption.
Qed.

(** ** Axis: the scaling arithmetic *)

Ltac axis_unfold :=
  unfold axis_inv, axis_config, in_deadband, midpoint, scale_range,
    Axis.min, Axis.max, Axis.deadband, Axis.invert, Axis.source_value in *.

Lemma floordiv_ok (a b : Z) : b <> 0 -> floordiv a b = Ok (a / b).
Proof.
  intro Hb. unfold floordiv.
  destruct (Z.eqb_spec b 0) as [E|E]; [contradiction | reflexivity].
Qed.

Lemma scaled_ok (a : Axis.t) (r : Z) :
  Axis._db_range a <> 0 -> exists v, Axis.scaled a r = Ok v.
Proof.
  intro Hd. unfold Axis.scaled. rewrite floordiv_ok by assumption.
  eexists. reflexivity.
Qed.

Lemma scaled_raises (a : Axis.t) (r : Z) :
  Axis._db_range a = 0 -> Axis.scaled a r = Raise ZeroDivisionError.
Proof. intro Hd. unfold Axis.scaled, floordiv. rewrite Hd. reflexivity. Qed.

Lemma scaled_bounds (a : Axis.t) (r v : Z) :
  Axis._invert a = 1 \/ Axis._invert a = -1 ->
  Axis.scaled a r = Ok v ->
  -127 <= v <= 127.
Proof.
  intros Hs. unfold Axis.scaled.
  destruct (floordiv _ _) as [q|e]; [| discriminate].
  intro E. injection E as <-.
  destruct Hs as [-> | ->]; lia.
Qed.

(** The code's scaling is the specification's. *)
Lemma scaled_scaling (a : Axis.t) (r : Z) :
  axis_inv a ->
  Axis.scaled a r =
  match scaling (Axis.min a) (Axis.max a) (Axis.deadband a) (sign_of a) r with
  | Some v => Ok v
  | None => Raise ZeroDivisionError
  end.
Proof.
  intros (_ & _ & Hs & Hm & Hd).
  unfold Axis.scaled, scaling, floordiv, clamp, sign_of.
  axis_unfold. rewrite Hm, Hd.
  replace (Axis._deadband a * 2) with (2 * Axis._deadband a) by lia.
  rewrite Z.gtb_ltb.
  replace (if Axis._invert a <? 0 then -1 else 1) with (Axis._invert a)
    by (destruct Hs as [-> | ->]; reflexivity).
  destruct (_ =? 0); reflexivity.
Qed.

(** The quotient at the centre of the scale is [127] exactly when the scale
    range is even or at least [255]. *)
Lemma centre_quotient (d : Z) :
  0 < d -> Z.even d = true \/ 255 <= d -> d / 2 * 255 / d = 127.
Proof.
  intros Hd Hc.
  assert (Hk : d = 2 * (d / 2) + d mod 2) by (apply Z.div_mod; lia).
  assert (Hr : 0 <= d mod 2 < 2) by (apply Z.mod_pos_bound; lia).
  assert (He : Z.even d = true -> d mod 2 = 0).
  { intro E. rewrite Zmod_even, E. reflexivity. }
  symmetry. apply Z.div_unique with (r := d / 2 * 255 - d * 127).
  - left. destruct Hc as [E | Hbig]; [specialize (He E) |]; lia.
  - lia.
Qed.

(** ** Axis: reads, writes and the invariant *)

Lemma axis_value_fresh (hw : Board) (a : Axis.t) :
  analog_value hw (Axis._source a) <> Axis._last_source_value a ->
  Axis.value hw a =
  match Axis.scaled a (analog_value hw (Axis._source a)) with
  | Ok v => (Ok v, Axis.set__value a v)
  | Raise e => (Raise e, a)
  end.
Proof.
  intro Hne. unfold Axis.value, Axis._update.
  destruct (Z.eqb_spec (analog_value hw (Axis._source a))
              (Axis._last_source_value a)); [contradiction | reflexivity].
Qed.

Lemma axis_value_cached (hw : Board) (a : Axis.t) :
  analog_value hw (Axis._source a) = Axis._last_source_value a ->
  Axis.value hw a = (Ok (Axis._value a), a).
Proof.
  intro He. unfold Axis.value, Axis._update.
  rewrite He, Z.eqb_refl. reflexivity.
Qed.

Lemma axis_set_peripheral (a : Axis.t) (v : Z) :
  isinstance_VirtualInput (Axis._source a) = false ->
  Axis.set_source_value v a = (Raise set_error, a).
Proof. intro Hp. unfold Axis.set_source_value. rewrite Hp. reflexivity. Qed.

Lemma axis_set_virtual (hw : Board) (a : Axis.t) (v : Z) :
  isinstance_VirtualInput (Axis._source a) = true ->
  Axis.set_source_value v a = (Ok tt, written a v) /\
  Axis.source_value hw (written a v) = v.
Proof.
  intro Hv. unfold written, Axis.set_source_value. rewrite Hv. cbn.
  split; [reflexivity |].
  unfold Axis.source_value. cbn. apply assign_value_read_analog, Hv.
Qed.

Lemma axis_update_frame (hw : Board) (a : Axis.t) :
  axis_frame a (snd (Axis._update hw a)).
Proof.
  unfold Axis._update.
  destruct (_ =? _); [| destruct (Axis.scaled _ _)]; cbn;
    repeat split; apply source_frame_refl.
Qed.

Lemma axis_set_frame (v : Z) (a : Axis.t) :
  axis_frame a (snd (Axis.set_source_value v a)).
Proof.
  unfold Axis.set_source_value.
  destruct (isinstance_VirtualInput (Axis._source a)); cbn; repeat split;
    first [apply source_frame_assign | apply source_frame_refl].
Qed.

Lemma axis_step_state (hw : Board) (c : Axis.call) (a : Axis.t) :
  snd (Axis.step hw c a) =
  match c with
  | Axis.Get_value => snd (Axis._update hw a)
  | Axis.Set_source_value v => snd (Axis.set_source_value v a)
  end.
Proof.
  destruct c as [|v]; unfold Axis.step, Axis.value.
  - destruct (Axis._update hw a) as [[x|e] a']; reflexivity.
  - destruct (Axis.set_source_value v a) as [[x|e] a']; reflexivity.
Qed.

Lemma axis_step_frame (hw : Board) (c : Axis.call) (a : Axis.t) :
  axis_frame a (snd (Axis.step hw c a)).
Proof.
  rewrite axis_step_state.
  destruct c; [apply axis_update_frame | apply axis_set_frame].
Qed.

Lemma axis_frame_trans (a1 a2 a3 : Axis.t) :
  axis_frame a1 a2 -> axis_frame a2 a3 -> axis_frame a1 a3.
Proof.
  intros (Hs & H1 & H2 & H3 & H4 & H5 & H6 & H7)
         (Hs' & H1' & H2' & H3' & H4' & H5' & H6' & H7').
  repeat split; try (eapply source_frame_trans; eassumption); congruence.
Qed.

Lemma axis_run_frame (trace : list (Board * Axis.call)) (a : Axis.t) :
  axis_frame a (snd (run Axis.step trace a)).
Proof.
  revert a. induction trace as [|[hw c] trace IH]; intro a; cbn [run].
  - repeat split; apply source_frame_refl.
  - pose proof (axis_step_frame hw c a) as Hstep.
    destruct (Axis.step hw c a) as [o a1]. cbn [snd] in Hstep.
    specialize (IH a1).
    destruct (run Axis.step trace a1) as [os a2]. cbn [snd] in *.
    eapply axis_frame_trans; eassumption.
Qed.

Lemma axis_frame_config (a a' : Axis.t) :
  axis_frame a a' -> axis_config a' = axis_config a.
Proof.
  intros (_ & H1 & H2 & H3 & H4 & _). axis_unfold. congruence.
Qed.

Lemma axis_update_inv (hw : Board) (a : Axis.t) :
  axis_inv a -> axis_inv (snd (Axis._update hw a)).
Proof.
  intros Hinv. unfold Axis._update.
  destruct (_ =? _); [exact Hinv |].
  destruct (Axis.scaled a _) as [v|e] eqn:E; [| exact Hinv].
  destruct Hinv as (Hl & Hv & Hs & Hm & Hd).
  pose proof (scaled_bounds _ _ _ Hs E).
  axis_unfold. cbn. repeat split; (assumption || lia).
Qed.

Lemma axis_set_inv (v : Z) (a : Axis.t) :
  axis_inv a -> axis_inv (snd (Axis.set_source_value v a)).
Proof.
  intros Hinv. unfold Axis.set_source_value.
  destruct (isinstance_VirtualInput _); exact Hinv.
Qed.

Lemma axis_init_inv hw source deadband min max invert (a : Axis.t) :
  Axis.__init__ hw source deadband min max invert = Ok a -> axis_inv a.
Proof.
  unfold Axis.__init__.
  set (self := Axis.Build_t _ _ _ _ _ _ _ _ _).
  assert (Hself : axis_inv self).
  { subst self. axis_unfold.
    cbn [Axis._last_source_value Axis._value Axis._invert Axis._min
         Axis._max Axis._deadband Axis._raw_midpoint Axis._db_range].
    repeat split; try reflexivity; try lia.
    destruct invert; [right | left]; reflexivity. }
  pose proof (axis_update_inv hw self Hself) as Hinv.
  destruct (Axis._update hw self) as [[v|e] self']; [| discriminate].
  intro E. injection E as <-. exact Hinv.
Qed.

Lemma axis_reachable_inv (a : Axis.t) : Axis.reachable a -> axis_inv a.
Proof.
  induction 1 as [hw source deadband min max invert self Hinit
                 | hw c self Hreach IH].
  - eapply axis_init_inv; eassumption.
  - rewrite axis_step_state.
    destruct c; [apply axis_update_inv | apply axis_set_inv]; assumption.
Qed.

Lemma axis_default_init (hw : Board) : Axis.default hw = Ok axis_default.
Proof. reflexivity. Qed.

Lemma axis_narrow_init (hw : Board) :
  Axis.__init__ hw None 1 0 3 false = Ok axis_narrow.
Proof. reflexivity. Qed.

Lemma axis_default_reachable : Axis.reachable axis_default.
Proof. exact (Axis.reach_init quiet _ _ _ _ _ _ (axis_default_init quiet)). Qed.

Lemma axis_written_reachable (a : Axis.t) (v : Z) :
  Axis.reachable a -> Axis.reachable (written a v).
Proof.
  intro Hr. unfold written.
  rewrite <- (axis_step_state quiet (Axis.Set_source_value v) a).
  apply Axis.reach_step, Hr.
Qed.

Lemma scaled_ext (a1 a2 : Axis.t) (r : Z) :
  Axis._min a2 = Axis._min a1 ->
  Axis._max a2 = Axis._max a1 ->
  Axis._deadband a2 = Axis._deadband a1 ->
  Axis._invert a2 = Axis._invert a1 ->
  Axis._raw_midpoint a2 = Axis._raw_midpoint a1 ->
  Axis._db_range a2 = Axis._db_range a1 ->
  Axis.scaled a2 r = Axis.scaled a1 r.
Proof.
  intros H1 H2 H3 H4 H5 H6. unfold Axis.scaled.
  rewrite H1, H2, H3, H4, H5, H6. reflexivity.
Qed.

(** A read whose sample is not [0] returns the specification's scaling of
    that sample. *)
Lemma axis_value_nonzero_scaling (hw : Board) (a : Axis.t) :
  Axis.reachable a ->
  scale_range a <> 0 ->
  Axis.source_value hw a <> 0 ->
  exists v,
    fst (Axis.value hw a) = Ok v /\
    scaling (Axis.min a) (Axis.max a) (Axis.deadband a) (sign_of a)
      (Axis.source_value hw a) = Some v.
Proof.
  intros Hr Hsr Hnz.
  pose proof (axis_reachable_inv a Hr) as Hinv.
  pose proof (scaled_scaling a (Axis.source_value hw a) Hinv) as Hsc.
  destruct Hinv as (Hl & _ & _ & _ & Hd).
  unfold Axis.source_value in *.
  rewrite axis_value_fresh by congruence.
  destruct (scaled_ok a (analog_value hw (Axis._source a))) as [v Hv];
    [congruence |].
  rewrite Hv in *. exists v. split; [reflexivity |].
  destruct (scaling _ _ _ _ _); congruence.
Qed.

(** A read whose sample is [0] returns the value computed by the last read
    that recomputed, whatever its sample was. *)
Lemma axis_value_zero_cached (hw : Board) (a : Axis.t) :
  Axis.reachable a ->
  Axis.source_value hw a = 0 ->
  Axis.value hw a = (Ok (Axis._value a), a).
Proof.
  intros Hr Hz. apply axis_value_cached.
  destruct (axis_reachable_inv a Hr) as (Hl & _).
  unfold Axis.source_value in Hz. congruence.
Qed.

(** No call stores a sample in [_last_source_value]. *)
Lemma axis_last_source_value_fixed (a : Axis.t) :
  Axis.reachable a -> Axis._last_source_value a = 0.
Proof. intro Hr. apply (axis_reachable_inv a Hr). Qed.

(** ** Axis: the claims *)

(** C7.  Every read of [Axis.value] on an axis with a positive scale range
    returns an integer in [-127, 127], whatever the sample, in or out of
    [min, max]. *)
Theorem axis_value_in_range (hw : Board) (a : Axis.t) :
  Axis.reachable a ->
  0 < scale_range a ->
  exists v, fst (Axis.value hw a) = Ok v /\ -127 <= v <= 127.
Proof.
  intros Hr Hsr.
  destruct (axis_reachable_inv a Hr) as (Hl & Hv & Hs & Hm & Hd).
  unfold Axis.value, Axis._update.
  destruct (_ =? _).
  - exists (Axis._value a). split; [reflexivity | exact Hv].
  - destruct (scaled_ok a (analog_value hw (Axis._source a))) as [v Ev];
      [lia |].
    rewrite Ev. exists v. split; [reflexivity |].
    eapply scaled_bounds; eassumption.
Qed.

Lemma axis_value_in_range_witness :
  exists v,
    fst (Axis.value quiet (written axis_narrow 65535)) = Ok v /\
    -127 <= v <= 127.
Proof.
  apply (axis_value_in_range quiet (written axis_narrow 65535)).
  - apply axis_written_reachable.
    exact (Axis.reach_init quiet _ _ _ _ _ _ (axis_narrow_init quiet)).
  - reflexivity.
Defined.

(** C6.  A read at the sample [0] is not freshly computed and breaks the
    order: on [Axis()] that has read 127 from the sample 65535, the samples
    [0] and [100] both lie in [min, max] below the deadband window, yet the
    read at [0] returns the cached 127 and the read at [100] returns -127.
    The scaling code itself is monotonic there: it gives -127 at both. *)
Theorem axis_read_at_zero_breaks_monotonicity :
  let a := snd (Axis.value quiet (written axis_default 65535)) in
  Axis.reachable (written a 0) /\
  Axis.reachable (written a 100) /\
  axis_config (written a 100) = axis_config (written a 0) /\
  axis_config (written a 0) = (0, 65535, 0, false) /\
  0 < scale_range (written a 0) /\
  Axis.source_value quiet (written a 0) = 0 /\
  Axis.source_value quiet (written a 100) = 100 /\
  ~ in_deadband (written a 0) 0 /\
  ~ in_deadband (written a 0) 100 /\
  fst (Axis.value quiet (written a 0)) = Ok 127 /\
  fst (Axis.value quiet (written a 100)) = Ok (-127) /\
  Axis.scaled (written a 0) 0 = Ok (-127) /\
  Axis.scaled (written a 0) 100 = Ok (-127) /\
  ~ (forall (hw1 hw2 : Board) (a1 a2 : Axis.t) (v1 v2 : Z),
        Axis.reachable a1 ->
        Axis.reachable a2 ->
        axis_config a2 = axis_config a1 ->
        0 < scale_range a1 ->
        Axis.invert a1 = false ->
        Axis.min a1 <= Axis.source_value hw1 a1 ->
        Axis.source_value hw1 a1 <= Axis.source_value hw2 a2 ->
        Axis.source_value hw2 a2 <= Axis.max a1 ->
        ~ in_deadband a1 (Axis.source_value hw1 a1) ->
        ~ in_deadband a1 (Axis.source_value hw2 a2) ->
        fst (Axis.value hw1 a1) = Ok v1 ->
        fst (Axis.value hw2 a2) = Ok v2 ->
        v1 <= v2).
Proof.
  intro a.
  assert (Ha : Axis.reachable a).
  { subst a. rewrite <- (axis_step_state quiet Axis.Get_value).
    apply Axis.reach_step, axis_written_reachable, axis_default_reachable. }
  assert (H0 : Axis.reachable (written a 0))
    by (apply axis_written_reachable, Ha).
  assert (H100 : Axis.reachable (written a 100))
    by (apply axis_written_reachable, Ha).
  assert (Hout0 : ~ in_deadband (written a 0) 0).
  { vm_compute. intro H. apply H. reflexivity. }
  assert (Hout100 : ~ in_deadband (written a 0) 100).
  { vm_compute. intro H. apply H. reflexivity. }
  repeat (split; [first [assumption | reflexivity] |]).
  intro Hclaim.
  specialize (Hclaim quiet quiet (written a 0) (written a 100) 127 (-127)
                H0 H100 eq_refl eq_refl eq_refl).
  assert (Hle : 127 <= -127).
  { apply Hclaim; try assumption; try reflexivity;
      vm_compute; discriminate. }
  lia.
Qed.

(** Where the centre does read [0]: on an axis whose minimum is not
    negative and whose scale range is positive and either even or at least
    255, every sample within the deadband window reads as exactly [0]. *)
Lemma axis_centre_reads_zero_on_wide_range (hw : Board) (a : Axis.t) :
  Axis.reachable a ->
  0 <= Axis.min a ->
  0 < scale_range a ->
  Z.even (scale_range a) = true \/ 255 <= scale_range a ->
  in_deadband a (Axis.source_value hw a) ->
  fst (Axis.value hw a) = Ok 0.
Proof.
  intros Hr Hmin Hsr Hc Hin.
  destruct (axis_reachable_inv a Hr) as (Hl & _ & _ & Hm & Hd).
  assert (Htwo : 2 <= scale_range a).
  { destruct Hc as [E | ?]; [| lia].
    destruct (Z.eq_dec (scale_range a) 1) as [E1 | ?]; [| lia].
    rewrite E1 in E. discriminate. }
  axis_unfold.
  set (r := analog_value hw (Axis._source a)) in *.
  assert (Hwin : Axis._raw_midpoint a - Axis._deadband a <= r /\
                 r <= Axis._raw_midpoint a + Axis._deadband a /\
                 Axis._min a < r /\ r <= Axis._max a).
  { clear Hc. rewrite Hm.
    pose proof (Z.div_mod (Axis._max a - Axis._min a) 2 ltac:(lia)).
    pose proof (Z.mod_pos_bound (Axis._max a - Axis._min a) 2 ltac:(lia)).
    lia. }
  assert (Hfresh : r <> Axis._last_source_value a) by lia.
  rewrite (axis_value_fresh hw a Hfresh). fold r.
  unfold Axis.scaled. rewrite floordiv_ok by lia.
  rewrite (Z.max_l r (Axis._min a)), (Z.min_l r (Axis._max a)) by lia.
  rewrite Z.gtb_ltb.
  destruct (Z.ltb_spec r (Axis._raw_midpoint a - Axis._deadband a)); [lia |].
  destruct (Z.ltb_spec (Axis._raw_midpoint a + Axis._deadband a) r); [lia |].
  rewrite Hd, (centre_quotient _ Hsr Hc). reflexivity.
Qed.

(** C3.  A centred sample does not always read [0]: on
    [Axis(deadband=1, min=0, max=3)] the scale range is [1], the sample [1]
    is the midpoint, and the read gives [-127].  The deadband branch takes
    [_db_range // 2] for the centre and scales it by a second floor
    division, which lands on 127 only for an even scale range or one of at
    least 255. *)
Theorem axis_centred_sample_reads_off_zero :
  Axis.__init__ quiet None 1 0 3 false = Ok axis_narrow /\
  Axis.reachable (written axis_narrow 1) /\
  0 < scale_range (written axis_narrow 1) /\
  Axis.source_value quiet (written axis_narrow 1) = 1 /\
  in_deadband (written axis_narrow 1)
    (Axis.source_value quiet (written axis_narrow 1)) /\
  fst (Axis.value quiet (written axis_narrow 1)) = Ok (-127) /\
  ~ (forall (hw : Board) (a : Axis.t),
        Axis.reachable a ->
        0 < scale_range a ->
        in_deadband a (Axis.source_value hw a) ->
        fst (Axis.value hw a) = Ok 0).
Proof.
  assert (Hreach : Axis.reachable (written axis_narrow 1)).
  { apply axis_written_reachable.
    exact (Axis.reach_init quiet _ _ _ _ _ _ (axis_narrow_init quiet)). }
  assert (Hin : in_deadband (written axis_narrow 1)
                  (Axis.source_value quiet (written axis_narrow 1))).
  { vm_compute. discriminate. }
  repeat split; try assumption.
  intro Hclaim.
  specialize (Hclaim quiet (written axis_narrow 1) Hreach eq_refl Hin).
  vm_compute in Hclaim. discriminate.
Qed.

(** A written sample other than [0] shows in the next read. *)
Lemma axis_write_nonzero_visible (hw : Board) (a : Axis.t) (v : Z) :
  Axis.reachable a ->
  isinstance_VirtualInput (Axis._source a) = true ->
  scale_range a <> 0 ->
  v <> 0 ->
  exists x,
    fst (Axis.value hw (written a v)) = Ok x /\
    scaling (Axis.min a) (Axis.max a) (Axis.deadband a) (sign_of a) v = Some x.
Proof.
  intros Hr Hv Hsr Hnz.
  destruct (axis_set_virtual hw a v Hv) as [_ Hread].
  pose proof (axis_frame_config _ _ (axis_set_frame v a)) as Hcfg.
  fold (written a v) in Hcfg.
  destruct (axis_value_nonzero_scaling hw (written a v)) as (x & Hx & Hs).
  - apply axis_written_reachable, Hr.
  - axis_unfold. injection Hcfg as -> -> -> _. exact Hsr.
  - rewrite Hread. exact Hnz.
  - exists x. split; [exact Hx |].
    rewrite Hread in Hs. unfold sign_of in *.
    axis_unfold. injection Hcfg as E1 E2 E3 E4.
    rewrite E1, E2, E3, E4 in Hs. exact Hs.
Qed.

(** C1.  The early return of [_update] tests the sample against
    [_last_source_value], which no read ever stores: after the samples 65535
    and then 0 are written to [Axis()], the second read returns 127, the
    scaling of the sample before, where the scaling of 0 is -127. *)
Theorem axis_read_returns_stale_value :
  Axis.default quiet = Ok axis_default /\
  fst (run Axis.step
         (on_quiet [Axis.Set_source_value 65535; Axis.Get_value;
                    Axis.Set_source_value 0; Axis.Get_value])
         axis_default) =
  [Axis.Assigned; Axis.Returned 127; Axis.Assigned; Axis.Returned 127] /\
  scaling 0 65535 0 1 65535 = Some 127 /\
  scaling 0 65535 0 1 0 = Some (-127) /\
  Axis._last_source_value
    (snd (run Axis.step
            (on_quiet [Axis.Set_source_value 65535; Axis.Get_value;
                       Axis.Set_source_value 0; Axis.Get_value])
            axis_default)) = 0.
Proof. repeat split; vm_compute; reflexivity. Qed.

(** C2.  On the virtual axis [Axis()] that has read 127 from the sample
    65535, writing the sample 0 succeeds and [source_value] returns 0, yet
    the next [value] read is still 127 and not the -127 that the sample 0
    scales to. *)
Theorem axis_zero_write_not_visible :
  let a := written axis_default 65535 in
  let a1 := snd (Axis.value quiet a) in
  isinstance_VirtualInput (Axis._source a1) = true /\
  fst (Axis.value quiet a) = Ok 127 /\
  fst (Axis.set_source_value 0 a1) = Ok tt /\
  Axis.source_value quiet (written a1 0) = 0 /\
  fst (Axis.value quiet (written a1 0)) = Ok 127 /\
  Axis.scaled (written a1 0) 0 = Ok (-127).
Proof. repeat split; vm_compute; reflexivity. Qed.

(** C8.  With [min = 0], [max = 65535], [deadband = 0] and no inversion the
    sample 65535 reads 127 and the sample 32768 reads 0, but the sample 0
    read on a new axis gives 0, the value cached by the constructor, and
    not -127. *)
Theorem axis_default_end_points :
  Axis.default quiet = Ok axis_default /\
  axis_config axis_default = (0, 65535, 0, false) /\
  fst (run Axis.step
         (on_quiet [Axis.Set_source_value 65535; Axis.Get_value])
         axis_default) = [Axis.Assigned; Axis.Returned 127] /\
  fst (run Axis.step
         (on_quiet [Axis.Set_source_value 32768; Axis.Get_value])
         axis_default) = [Axis.Assigned; Axis.Returned 0] /\
  fst (run Axis.step
         (on_quiet [Axis.Set_source_value 0; Axis.Get_value])
         axis_default) = [Axis.Assigned; Axis.Returned 0] /\
  Axis.scaled axis_default 0 = Ok (-127).
Proof. repeat split; vm_compute; reflexivity. Qed.

(** ** Configuration *)

(** C9.  Whatever calls are made on a button, an axis or a hat, with
    whatever boards, the configuration shown by the read-only accessors
    stays what it was, every peripheral source stays the same object and
    every field but a virtual cell and the cached value keeps its content:
    the virtual cell is all a client can change. *)
Theorem configuration_is_immutable :
  (forall (trace : list (Board * Button.call)) (b : Button.t),
      Button.active_low (snd (run Button.step trace b)) = Button.active_low b /\
      button_frame b (snd (run Button.step trace b))) /\
  (forall (trace : list (Board * Axis.call)) (a : Axis.t),
      axis_config (snd (run Axis.step trace a)) = axis_config a /\
      axis_frame a (snd (run Axis.step trace a))) /\
  (forall (trace : list (Board * Hat.call)) (h : Hat.t),
      Hat.active_low (snd (run Hat.step trace h)) = Hat.active_low h /\
      hat_frame h (snd (run Hat.step trace h))) /\
  (forall (v : bool) (b : Button.t),
      snd (Button.set_source_value v b) =
      if isinstance_VirtualInput (Button._source b)
      then {| Button._source := Virtual (VirtualInput.__init__ v);
              Button._active_low := Button._active_low b |}
      else b) /\
  (forall (v : Z) (a : Axis.t),
      snd (Axis.set_source_value v a) =
      if isinstance_VirtualInput (Axis._source a)
      then Axis.set__source_value a v
      else a).
Proof.
  split; [| split; [| split; [| split]]].
  - intros trace b. pose proof (button_run_frame trace b) as Hf.
    split; [apply Hf | exact Hf].
  - intros trace a. pose proof (axis_run_frame trace a) as Hf.
    split; [apply axis_frame_config, Hf | exact Hf].
  - intros trace h. pose proof (hat_run_frame trace h) as Hf.
    split; [apply Hf | exact Hf].
  - intros v b. unfold Button.set_source_value.
    destruct (Button._source b); reflexivity.
  - intros v a. unfold Axis.set_source_value.
    destruct (isinstance_VirtualInput _); reflexivity.
Qed.

(** ** Rest values *)

(** C10.  Built with no pins and default parameters, a button reads
    released for either polarity, an axis reads 0 and a hat reads IDLE,
    which is 8: the virtual digital cells start at [active_low] and the
    virtual analog cell at 32768. *)
Theorem virtual_inputs_start_at_rest (hw0 hw : Board) :
  (forall active_low : bool,
      digital_value hw (Button._source (Button.__init__ None active_low)) =
      active_low /\
      Button.value hw (Button.__init__ None active_low) = false) /\
  (exists a : Axis.t,
      Axis.default hw0 = Ok a /\
      Axis.source_value hw a = 32768 /\
      fst (Axis.value hw a) = Ok 0) /\
  (forall active_low : bool,
      let h := Hat.__init__ hw0 None None None None active_low in
      digital_value hw (Hat._up h) = active_low /\
      digital_value hw (Hat._down h) = active_low /\
      digital_value hw (Hat._left h) = active_low /\
      digital_value hw (Hat._right h) = active_low /\
      fst (Hat.value hw h) = Hat.IDLE) /\
  Hat.IDLE = 8.
Proof.
  split; [| split; [| split]].
  - intro al. split; [reflexivity |].
    unfold Button.value. cbn. apply bool_ne_same.
  - exists axis_default. repeat split; reflexivity.
  - intros [|]; repeat split; reflexivity.
  - reflexivity.
Qed.

(** * Further properties of the code *)

(** ** Axis: reads *)

Lemma axis_same_fields (a1 a2 : Axis.t) :
  axis_inv a1 -> axis_inv a2 ->
  axis_config a2 = axis_config a1 ->
  Axis._min a2 = Axis._min a1 /\
  Axis._max a2 = Axis._max a1 /\
  Axis._deadband a2 = Axis._deadband a1 /\
  Axis._invert a2 = Axis._invert a1 /\
  Axis._raw_midpoint a2 = Axis._raw_midpoint a1 /\
  Axis._db_range a2 = Axis._db_range a1.
Proof.
  intros (_ & _ & Hs1 & Hm1 & Hd1) (_ & _ & Hs2 & Hm2 & Hd2) Hcfg.
  axis_unfold. injection Hcfg as Cmin Cmax Cdb Cinv.
  assert (Csign : Axis._invert a2 = Axis._invert a1).
  { destruct Hs1 as [E1 | E1], Hs2 as [E2 | E2];
      rewrite E1, E2 in *; (reflexivity || discriminate). }
  repeat split; congruence.
Qed.

Lemma axis_invert_sign (a : Axis.t) :
  axis_inv a ->
  Axis._invert a = if Axis.invert a then -1 else 1.
Proof.
  intros (_ & _ & Hs & _). unfold Axis.invert.
  destruct Hs as [-> | ->]; reflexivity.
Qed.

Lemma axis_update_twice (hw : Board) (a : Axis.t) :
  Axis._update hw (snd (Axis._update hw a)) = Axis._update hw a.
Proof.
  unfold Axis._update.
  destruct (Z.eqb_spec (analog_value hw (Axis._source a))
              (Axis._last_source_value a)) as [E | E].
  - cbn [snd]. rewrite E, Z.eqb_refl. reflexivity.
  - destruct (Axis.scaled a (analog_value hw (Axis._source a)))
      as [v | e] eqn:Es; cbn [snd].
    + cbn [Axis.set__value Axis._source Axis._last_source_value].
      destruct (Z.eqb_spec (analog_value hw (Axis._source a))
                  (Axis._last_source_value a)); [contradiction |].
      rewrite (scaled_ext a (Axis.set__value a v)) by reflexivity.
      rewrite Es. reflexivity.
    + destruct (Z.eqb_spec (analog_value hw (Axis._source a))
                  (Axis._last_source_value a)); [contradiction |].
      rewrite Es. reflexivity.
Qed.

Lemma axis_update_returns_cached (hw : Board) (a : Axis.t) (v : Z) :
  fst (Axis._update hw a) = Ok v -> Axis._value (snd (Axis._update hw a)) = v.
Proof.
  unfold Axis._update.
  destruct (_ =? _); [| destruct (Axis.scaled _ _)]; cbn; congruence.
Qed.

(** X1.  Reading an axis twice on the same board gives the same answer
    twice, and the second read leaves the axis as the first left it. *)
Theorem axis_value_idempotent (hw : Board) (a : Axis.t) :
  Axis.value hw (snd (Axis.value hw a)) = Axis.value hw a.
Proof. exact (axis_update_twice hw a). Qed.

(** X2.  What a read at a sample other than [0] answers depends on the
    configuration and the sample alone: two axes with the same configuration
    answer alike, whatever was read or written before. *)
Theorem axis_value_history_independent (hw1 hw2 : Board) (a1 a2 : Axis.t) :
  Axis.reachable a1 ->
  Axis.reachable a2 ->
  axis_config a2 = axis_config a1 ->
  Axis.source_value hw2 a2 = Axis.source_value hw1 a1 ->
  Axis.source_value hw1 a1 <> 0 ->
  fst (Axis.value hw2 a2) = fst (Axis.value hw1 a1).
Proof.
  intros Hr1 Hr2 Hcfg Hsame Hnz.
  pose proof (axis_reachable_inv a1 Hr1) as Hi1.
  pose proof (axis_reachable_inv a2 Hr2) as Hi2.
  destruct (axis_same_fields a1 a2 Hi1 Hi2 Hcfg)
    as (F1 & F2 & F3 & F4 & F5 & F6).
  destruct Hi1 as (Hl1 & _). destruct Hi2 as (Hl2 & _).
  unfold Axis.source_value in *.
  rewrite (axis_value_fresh hw1 a1), (axis_value_fresh hw2 a2) by congruence.
  rewrite Hsame, (scaled_ext a1 a2) by assumption.
  destruct (Axis.scaled a1 _); reflexivity.
Qed.

Lemma axis_value_history_independent_witness :
  fst (Axis.value quiet
         (written (snd (Axis.value quiet (written axis_default 65535))) 100)) =
  fst (Axis.value quiet (written axis_default 100)).
Proof.
  apply (axis_value_history_independent quiet quiet
           (written axis_default 100)
           (written (snd (Axis.value quiet (written axis_default 65535))) 100)).
  - apply axis_written_reachable, axis_default_reachable.
  - apply axis_written_reachable.
    rewrite <- (axis_step_state quiet Axis.Get_value).
    apply Axis.reach_step, axis_written_reachable, axis_default_reachable.
  - reflexivity.
  - reflexivity.
  - vm_compute. discriminate.
Defined.

Lemma half_bounds (m : Z) : 2 * (m / 2) <= m <= 2 * (m / 2) + 1.
Proof.
  pose proof (Z.div_mod m 2 ltac:(lia)).
  pose proof (Z.mod_pos_bound m 2 ltac:(lia)).
  lia.
Qed.

(** The intermediate value of the deadband step grows with the sample, over
    all three branches. *)
Lemma scaled_monotone_all (a : Axis.t) (r1 r2 : Z) :
  axis_inv a ->
  0 < Axis._db_range a ->
  0 <= Axis._deadband a ->
  r1 <= r2 ->
  exists c1 c2,
    Axis.scaled a r1 = Ok (c1 * Axis._invert a) /\
    Axis.scaled a r2 = Ok (c2 * Axis._invert a) /\
    c1 <= c2.
Proof.
  intros (_ & _ & _ & Hm & Hd) Hpos Hdb Hle.
  axis_unfold.
  unfold Axis.scaled. rewrite !floordiv_ok by lia.
  do 2 eexists. split; [reflexivity | split; [reflexivity |]].
  apply Z.min_le_compat_r, Z.max_le_compat_r, Z.sub_le_mono_r.
  apply Z.div_le_mono; [assumption |].
  apply Z.mul_le_mono_nonneg_r; [lia |].
  pose proof (half_bounds (Axis._max a - Axis._min a)) as Hh.
  pose proof (half_bounds (Axis._db_range a)) as Hk.
  set (h := (Axis._max a - Axis._min a) / 2) in *.
  set (k := Axis._db_range a / 2) in *.
  set (c1 := Z.min (Z.max r1 (Axis._min a)) (Axis._max a)).
  set (c2 := Z.min (Z.max r2 (Axis._min a)) (Axis._max a)).
  assert (Hc : c1 <= c2 /\ Axis._min a <= c1 /\ c2 <= Axis._max a)
    by (subst c1 c2; lia).
  clearbody c1 c2.
  rewrite !Z.gtb_ltb.
  destruct (Z.ltb_spec c1 (Axis._raw_midpoint a - Axis._deadband a));
    destruct (Z.ltb_spec c2 (Axis._raw_midpoint a - Axis._deadband a));
    destruct (Z.ltb_spec (Axis._raw_midpoint a + Axis._deadband a) c1);
    destruct (Z.ltb_spec (Axis._raw_midpoint a + Axis._deadband a) c2);
    lia.
Qed.

(** X3.  With the configuration fixed and an unsigned deadband, a freshly
    computed value is monotonic in the sample over all integers, inside the
    deadband and beyond [min] and [max] too. *)
Theorem axis_value_monotonic_everywhere (hw1 hw2 : Board) (a1 a2 : Axis.t) :
  Axis.reachable a1 ->
  Axis.reachable a2 ->
  axis_config a2 = axis_config a1 ->
  0 < scale_range a1 ->
  0 <= Axis.deadband a1 ->
  Axis.source_value hw1 a1 <> 0 ->
  Axis.source_value hw2 a2 <> 0 ->
  Axis.source_value hw1 a1 <= Axis.source_value hw2 a2 ->
  exists v1 v2,
    fst (Axis.value hw1 a1) = Ok v1 /\
    fst (Axis.value hw2 a2) = Ok v2 /\
    if Axis.invert a1 then v2 <= v1 else v1 <= v2.
Proof.
  intros Hr1 Hr2 Hcfg Hsr Hdb Hf1 Hf2 Hle.
  pose proof (axis_reachable_inv a1 Hr1) as Hi1.
  pose proof (axis_reachable_inv a2 Hr2) as Hi2.
  destruct (axis_same_fields a1 a2 Hi1 Hi2 Hcfg)
    as (F1 & F2 & F3 & F4 & F5 & F6).
  pose proof (axis_invert_sign a1 Hi1) as Hsign.
  destruct (scaled_monotone_all a1 (Axis.source_value hw1 a1)
              (Axis.source_value hw2 a2) Hi1)
    as (c1 & c2 & E1 & E2 & Hc); try assumption.
  { destruct Hi1 as (_ & _ & _ & _ & Hd). rewrite Hd. exact Hsr. }
  destruct Hi1 as (Hl1 & _). destruct Hi2 as (Hl2 & _).
  unfold Axis.source_value in *.
  rewrite (axis_value_fresh hw1 a1), (axis_value_fresh hw2 a2) by congruence.
  rewrite (scaled_ext a1 a2) by assumption.
  rewrite E1, E2. do 2 eexists.
  split; [reflexivity | split; [reflexivity |]].
  rewrite Hsign. destruct (Axis.invert a1); lia.
Qed.

Lemma axis_value_monotonic_everywhere_witness :
  exists v1 v2,
    fst (Axis.value quiet (written axis_inverted 32767)) = Ok v1 /\
    fst (Axis.value quiet (written axis_inverted 70000)) = Ok v2 /\
    if Axis.invert (written axis_inverted 32767) then v2 <= v1 else v1 <= v2.
Proof.
  assert (Hr : Axis.reachable axis_inverted).
  { apply (Axis.reach_init quiet None 0 0 65535 true). reflexivity. }
  apply (axis_value_monotonic_everywhere quiet quiet
           (written axis_inverted 32767) (written axis_inverted 70000)).
  - apply axis_written_reachable, Hr.
  - apply axis_written_reachable, Hr.
  - reflexivity.
  - reflexivity.
  - vm_compute. discriminate.
  - vm_compute. discriminate.
  - vm_compute. discriminate.
  - vm_compute. discriminate.
Defined.

(** ** Axis: the ends and the sides of the scale *)

(** X4.  A sample at or below [min], other than [0], reads as the lower end
    of the scale: -127, or 127 on an inverted axis. *)
Theorem axis_value_at_or_below_min (hw : Board) (a : Axis.t) :
  Axis.reachable a ->
  0 < scale_range a ->
  0 <= Axis.deadband a ->
  Axis.source_value hw a <= Axis.min a ->
  Axis.source_value hw a <> 0 ->
  fst (Axis.value hw a) = Ok (if Axis.invert a then 127 else -127).
Proof.
  intros Hr Hsr Hdb Hlo Hnz.
  pose proof (axis_reachable_inv a Hr) as Hinv.
  pose proof (axis_invert_sign a Hinv) as Hsign.
  destruct Hinv as (Hl & _ & _ & Hm & Hd).
  axis_unfold.
  set (r := analog_value hw (Axis._source a)) in *.
  assert (Hfresh : r <> Axis._last_source_value a) by lia.
  rewrite (axis_value_fresh hw a Hfresh). fold r.
  pose proof (half_bounds (Axis._max a - Axis._min a)) as Hh.
  unfold Axis.scaled. rewrite floordiv_ok by lia.
  rewrite (Z.max_r r (Axis._min a)) by lia.
  rewrite (Z.min_l (Axis._min a) (Axis._max a)) by lia.
  rewrite Z.gtb_ltb.
  assert (Hzero :
    (if Axis._min a <? Axis._raw_midpoint a - Axis._deadband a
     then Axis._min a - Axis._min a
     else if Axis._raw_midpoint a + Axis._deadband a <? Axis._min a
     then Axis._min a - (Axis._min a - Axis._deadband a * 2)
     else Axis._db_range a / 2) = 0).
  { destruct (Z.ltb_spec (Axis._min a)
                (Axis._raw_midpoint a - Axis._deadband a)); [lia |].
    destruct (Z.ltb_spec (Axis._raw_midpoint a + Axis._deadband a)
                (Axis._min a)); [lia |].
    assert (E : Axis._db_range a = 1) by lia.
    rewrite E. reflexivity. }
  rewrite Hzero, Hsign. cbn [Z.mul]. rewrite Z.div_0_l by lia.
  destruct (Axis._invert a <? 0); reflexivity.
Qed.

Lemma axis_value_at_or_below_min_witness :
  fst (Axis.value quiet (written axis_default (-5))) =
  Ok (if Axis.invert (written axis_default (-5)) then 127 else -127).
Proof.
  apply (axis_value_at_or_below_min quiet (written axis_default (-5))).
  - apply axis_written_reachable, axis_default_reachable.
  - reflexivity.
  - vm_compute. discriminate.
  - vm_compute. discriminate.
  - vm_compute. discriminate.
Defined.

(** X5.  A sample at or above [max], other than [0], reads as the upper end
    of the scale: 127, or -127 on an inverted axis. *)
Theorem axis_value_at_or_above_max (hw : Board) (a : Axis.t) :
  Axis.reachable a ->
  0 < scale_range a ->
  0 <= Axis.deadband a ->
  Axis.max a <= Axis.source_value hw a ->
  Axis.source_value hw a <> 0 ->
  fst (Axis.value hw a) = Ok (if Axis.invert a then -127 else 127).
Proof.
  intros Hr Hsr Hdb Hhi Hnz.
  pose proof (axis_reachable_inv a Hr) as Hinv.
  pose proof (axis_invert_sign a Hinv) as Hsign.
  destruct Hinv as (Hl & _ & _ & Hm & Hd).
  axis_unfold.
  set (r := analog_value hw (Axis._source a)) in *.
  assert (Hfresh : r <> Axis._last_source_value a) by lia.
  rewrite (axis_value_fresh hw a Hfresh). fold r.
  pose proof (half_bounds (Axis._max a - Axis._min a)) as Hh.
  unfold Axis.scaled. rewrite floordiv_ok by lia.
  rewrite (Z.max_l r (Axis._min a)) by lia.
  rewrite (Z.min_r r (Axis._max a)) by lia.
  rewrite Z.gtb_ltb.
  destruct (Z.ltb_spec (Axis._max a)
              (Axis._raw_midpoint a - Axis._deadband a)); [lia |].
  destruct (Z.ltb_spec (Axis._raw_midpoint a + Axis._deadband a)
              (Axis._max a)); [| lia].
  assert (Hq : 255 <=
               (Axis._max a - (Axis._min a - Axis._deadband a * 2)) * 255 /
               Axis._db_range a).
  { apply Z.div_le_lower_bound; lia. }
  set (q := _ / Axis._db_range a) in *.
  replace (Z.min (Z.max (q - 127) (-127)) 127) with 127 by lia.
  rewrite Hsign. destruct (Axis._invert a <? 0); reflexivity.
Qed.

Lemma axis_value_at_or_above_max_witness :
  fst (Axis.value quiet (written axis_inverted 65535)) =
  Ok (if Axis.invert (written axis_inverted 65535) then -127 else 127).
Proof.
  apply (axis_value_at_or_above_max quiet (written axis_inverted 65535)).
  - apply axis_written_reachable.
    apply (Axis.reach_init quiet None 0 0 65535 true). reflexivity.
  - reflexivity.
  - vm_compute. discriminate.
  - vm_compute. discriminate.
  - vm_compute. discriminate.
Defined.

(** The quotient of the linear map on each side of the upper edge of the
    deadband window. *)
Lemma scaled_side (a : Axis.t) (r : Z) :
  axis_inv a ->
  0 < Axis._db_range a ->
  0 <= Axis._deadband a ->
  exists c,
    Axis.scaled a r = Ok (c * Axis._invert a) /\
    (r <= Axis._raw_midpoint a + Axis._deadband a -> c <= 0) /\
    (Axis._raw_midpoint a + Axis._deadband a < r -> 0 <= c).
Proof.
  intros (_ & _ & _ & Hm & Hd) Hpos Hdb.
  axis_unfold.
  unfold Axis.scaled. rewrite floordiv_ok by lia.
  eexists. split; [reflexivity |].
  pose proof (half_bounds (Axis._max a - Axis._min a)) as Hh.
  pose proof (half_bounds (Axis._db_range a)) as Hk.
  set (h := (Axis._max a - Axis._min a) / 2) in *.
  set (k := Axis._db_range a / 2) in *.
  set (c := Z.min (Z.max r (Axis._min a)) (Axis._max a)).
  assert (Hc : Axis._min a <= c <= Axis._max a /\
               (r <= Axis._raw_midpoint a + Axis._deadband a ->
                c <= Axis._raw_midpoint a + Axis._deadband a) /\
               (Axis._raw_midpoint a + Axis._deadband a < r ->
                Axis._raw_midpoint a + Axis._deadband a < c))
    by (subst c; lia).
  clearbody c.
  rewrite Z.gtb_ltb.
  set (n := if c <? Axis._raw_midpoint a - Axis._deadband a then _ else _).
  assert (Hn : (c <= Axis._raw_midpoint a + Axis._deadband a ->
                n * 255 < Axis._db_range a * 128) /\
               (Axis._raw_midpoint a + Axis._deadband a < c ->
                Axis._db_range a * 127 <= n * 255)).
  { subst n.
    destruct (Z.ltb_spec c (Axis._raw_midpoint a - Axis._deadband a));
      destruct (Z.ltb_spec (Axis._raw_midpoint a + Axis._deadband a) c);
      split; intros; lia. }
  clearbody n. destruct Hn as [Hlow Hhigh]. destruct Hc as (_ & Hcl & Hch).
  split; intro Hside.
  - assert (n * 255 / Axis._db_range a < 128)
      by (apply Z.div_lt_upper_bound; auto).
    set (q := n * 255 / Axis._db_range a) in *. lia.
  - assert (127 <= n * 255 / Axis._db_range a)
      by (apply Z.div_le_lower_bound; auto).
    set (q := n * 255 / Axis._db_range a) in *. lia.
Qed.

(** X6.  The sign of a freshly computed value tells the side of the sample:
    up to the upper edge of the deadband window the value is never positive,
    above it never negative; on an inverted axis the other way round. *)
Theorem axis_value_sign_by_side (hw : Board) (a : Axis.t) :
  Axis.reachable a ->
  0 < scale_range a ->
  0 <= Axis.deadband a ->
  Axis.source_value hw a <> 0 ->
  exists v,
    fst (Axis.value hw a) = Ok v /\
    if Axis.source_value hw a <=? midpoint a + Axis.deadband a
    then (if Axis.invert a then 0 <= v else v <= 0)
    else (if Axis.invert a then v <= 0 else 0 <= v).
Proof.
  intros Hr Hsr Hdb Hnz.
  pose proof (axis_reachable_inv a Hr) as Hinv.
  pose proof (axis_invert_sign a Hinv) as Hsign.
  destruct (scaled_side a (Axis.source_value hw a) Hinv)
    as (c & Ec & Hlow & Hhigh).
  { destruct Hinv as (_ & _ & _ & _ & Hd). rewrite Hd. exact Hsr. }
  { exact Hdb. }
  destruct Hinv as (Hl & _ & _ & Hm & _).
  rewrite Hm in Hlow, Hhigh.
  unfold Axis.source_value in *.
  rewrite axis_value_fresh by congruence.
  rewrite Ec. eexists. split; [reflexivity |].
  rewrite Hsign.
  destruct (Z.leb_spec (analog_value hw (Axis._source a))
              (midpoint a + Axis.deadband a)) as [Hs | Hs];
    [specialize (Hlow Hs) | specialize (Hhigh Hs)];
    destruct (Axis.invert a); lia.
Qed.

Lemma axis_value_sign_by_side_witness :
  exists v,
    fst (Axis.value quiet (written axis_narrow 3)) = Ok v /\
    if Axis.source_value quiet (written axis_narrow 3) <=?
       midpoint (written axis_narrow 3) + Axis.deadband (written axis_narrow 3)
    then (if Axis.invert (written axis_narrow 3) then 0 <= v else v <= 0)
    else (if Axis.invert (written axis_narrow 3) then v <= 0 else 0 <= v).
Proof.
  apply (axis_value_sign_by_side quiet (written axis_narrow 3)).
  - apply axis_written_reachable.
    exact (Axis.reach_init quiet _ _ _ _ _ _ (axis_narrow_init quiet)).
  - reflexivity.
  - vm_compute. discriminate.
  - vm_compute. discriminate.
Defined.

(** X7.  Inversion negates: of two axes that differ in [invert] alone, the
    inverted one reads, at the same sample other than [0], the opposite of
    what the other reads. *)
Theorem axis_inversion_negates (hw1 hw2 : Board) (a1 a2 : Axis.t) :
  Axis.reachable a1 ->
  Axis.reachable a2 ->
  Axis.min a2 = Axis.min a1 ->
  Axis.max a2 = Axis.max a1 ->
  Axis.deadband a2 = Axis.deadband a1 ->
  Axis.invert a1 = false ->
  Axis.invert a2 = true ->
  scale_range a1 <> 0 ->
  Axis.source_value hw2 a2 = Axis.source_value hw1 a1 ->
  Axis.source_value hw1 a1 <> 0 ->
  exists v,
    fst (Axis.value hw1 a1) = Ok v /\
    fst (Axis.value hw2 a2) = Ok (- v).
Proof.
  intros Hr1 Hr2 Cmin Cmax Cdb Hn Hi Hsr Hsame Hnz.
  pose proof (axis_reachable_inv a1 Hr1) as Hi1.
  pose proof (axis_reachable_inv a2 Hr2) as Hi2.
  pose proof (axis_invert_sign a1 Hi1) as Hs1.
  pose proof (axis_invert_sign a2 Hi2) as Hs2.
  rewrite Hn in Hs1. rewrite Hi in Hs2.
  destruct Hi1 as (Hl1 & _ & _ & Hm1 & Hd1).
  destruct Hi2 as (Hl2 & _ & _ & Hm2 & Hd2).
  axis_unfold.
  rewrite (axis_value_fresh hw1 a1), (axis_value_fresh hw2 a2) by congruence.
  rewrite Hsame. unfold Axis.scaled.
  rewrite Hm2, Hd2, Hm1, Hd1, Cmin, Cmax, Cdb, Hs1, Hs2.
  rewrite floordiv_ok by exact Hsr.
  eexists. split; [reflexivity |]. cbn [fst]. f_equal. lia.
Qed.

Lemma axis_inversion_negates_witness :
  exists v,
    fst (Axis.value quiet (written axis_default 100)) = Ok v /\
    fst (Axis.value quiet (written axis_inverted 100)) = Ok (- v).
Proof.
  apply (axis_inversion_negates quiet quiet
           (written axis_default 100) (written axis_inverted 100)).
  - apply axis_written_reachable, axis_default_reachable.
  - apply axis_written_reachable.
    apply (Axis.reach_init quiet None 0 0 65535 true). reflexivity.
  - reflexivity.
  - reflexivity.
  - reflexivity.
  - reflexivity.
  - reflexivity.
  - vm_compute. discriminate.
  - reflexivity.
  - vm_compute. discriminate.
Defined.

(** ** Axis: construction and a zero scale range *)

Lemma axis_init_cases (hw : Board) (source : option Pin)
  (deadband min max : Z) (invert : bool) :
  let sample := analog_value hw (_initialize_analog_source source) in
  if (max - min - deadband * 2 =? 0) && negb (sample =? 0)
  then Axis.__init__ hw source deadband min max invert =
       Raise ZeroDivisionError
  else exists a : Axis.t,
      Axis.__init__ hw source deadband min max invert = Ok a /\
      axis_config a = (min, max, deadband, invert) /\
      Axis._source a = _initialize_analog_source source /\
      -127 <= Axis._value a <= 127 /\
      Axis.value hw a = (Ok (Axis._value a), a).
Proof.
  intro sample. unfold Axis.__init__.
  set (self := Axis.Build_t _ _ _ _ _ _ _ _ _).
  assert (Hself : axis_inv self).
  { subst self. axis_unfold.
    cbn [Axis._last_source_value Axis._value Axis._invert Axis._min
         Axis._max Axis._deadband Axis._raw_midpoint Axis._db_range].
    repeat split; try reflexivity; try lia.
    destruct invert; [right | left]; reflexivity. }
  assert (Hcfg : axis_config self = (min, max, deadband, invert)).
  { subst self. unfold axis_config, Axis.min, Axis.max, Axis.deadband,
      Axis.invert. cbn. destruct invert; reflexivity. }
  pose proof (axis_update_twice hw self) as Htwice.
  pose proof (axis_update_inv hw self Hself) as Hinv.
  pose proof (axis_frame_config _ _ (axis_update_frame hw self)) as Hkeep.
  pose proof (axis_update_returns_cached hw self) as Hcache.
  assert (Hsrc : Axis._source (snd (Axis._update hw self)) =
                 Axis._source self).
  { unfold Axis._update.
    destruct (_ =? _); [| destruct (Axis.scaled _ _)]; reflexivity. }
  assert (Hcase : (Axis._update hw self =
                   if (max - min - deadband * 2 =? 0) && negb (sample =? 0)
                   then (Raise ZeroDivisionError, self)
                   else (fst (Axis._update hw self),
                         snd (Axis._update hw self))) /\
                  ((max - min - deadband * 2 =? 0) && negb (sample =? 0)
                   = false ->
                   exists v, fst (Axis._update hw self) = Ok v)).
  { unfold Axis._update. fold sample.
    change (Axis._source self) with (_initialize_analog_source source).
    fold sample.
    change (Axis._last_source_value self) with 0.
    destruct (sample =? 0).
    - rewrite andb_false_r. split; [reflexivity | eexists; reflexivity].
    - rewrite andb_true_r. unfold Axis.scaled, floordiv.
      change (Axis._db_range self) with (max - min - deadband * 2).
      destruct (max - min - deadband * 2 =? 0).
      + split; [reflexivity | discriminate].
      + split; [reflexivity | eexists; reflexivity]. }
  destruct Hcase as [Hcase Hok].
  destruct ((max - min - deadband * 2 =? 0) && negb (sample =? 0)).
  - rewrite Hcase. reflexivity.
  - destruct (Hok eq_refl) as [v Hv]. specialize (Hcache v Hv).
    unfold Axis.value. clear Hcase Hok.
    destruct (Axis._update hw self) as [[x | e] a]; cbn [fst snd] in *;
      [| discriminate].
    exists a. injection Hv as ->.
    destruct Hinv as (_ & Hrange & _).
    split; [reflexivity |].
    split; [congruence |].
    split; [exact Hsrc |].
    split; [exact Hrange |].
    rewrite Htwice, Hcache. reflexivity.
Qed.

(** X8.  The constructor raises [ZeroDivisionError] exactly when
    [max - min] is twice the deadband and the first sample is not [0];
    otherwise it returns an axis whose accessors give back the arguments,
    whose source is the one the factory made, and whose cached value lies in
    [-127, 127] and is what a read on the same board returns. *)
Theorem axis_init_outcome (hw : Board) (source : option Pin)
  (deadband min max : Z) (invert : bool) :
  let sample := analog_value hw (_initialize_analog_source source) in
  if (max - min - deadband * 2 =? 0) && negb (sample =? 0)
  then Axis.__init__ hw source deadband min max invert =
       Raise ZeroDivisionError
  else exists a : Axis.t,
      Axis.__init__ hw source deadband min max invert = Ok a /\
      axis_config a = (min, max, deadband, invert) /\
      Axis._source a = _initialize_analog_source source /\
      -127 <= Axis._value a <= 127 /\
      Axis.value hw a = (Ok (Axis._value a), a).
Proof. exact (axis_init_cases hw source deadband min max invert). Qed.

Lemma axis_zero_range_peripheral (a : Axis.t) :
  Axis.reachable a ->
  Axis._db_range a = 0 ->
  isinstance_VirtualInput (Axis._source a) = false.
Proof.
  induction 1 as [hw source deadband min max invert self Hinit
                 | hw c self Hreach IH]; intro Hz.
  - pose proof (axis_init_cases hw source deadband min max invert) as Ho.
    cbv zeta in Ho. rewrite Hinit in Ho.
    destruct source as [p |].
    + destruct (_ && _); [discriminate |].
      destruct Ho as (a & Ea & _ & Hs & _). injection Ea as <-.
      rewrite Hs. reflexivity.
    + assert (Hd : Axis._db_range self = max - min - deadband * 2).
      { pose proof (axis_init_inv _ _ _ _ _ _ _ Hinit) as (_ & _ & _ & _ & Hd).
        destruct (_ && _); [discriminate |].
        destruct Ho as (a & Ea & Hc & _). injection Ea as <-.
        rewrite Hd. axis_unfold. injection Hc as -> -> -> _. lia. }
      rewrite Hd in Hz. rewrite Hz in Ho. cbn in Ho. discriminate.
  - destruct (axis_step_frame hw c self) as (Hs & _ & _ & _ & _ & _ & _ & Hd).
    rewrite Hd in Hz. specialize (IH Hz).
    destruct (Axis._source self); [| discriminate].
    cbn in Hs. rewrite Hs. reflexivity.
Qed.

(** X9.  On an axis whose scale range is [0] every read at a sample other
    than [0] raises [ZeroDivisionError] and leaves the axis as it was; such
    an axis is always on a pin, one that read [0] when it was built. *)
Theorem axis_zero_range_read_raises (hw : Board) (a : Axis.t) :
  Axis.reachable a ->
  scale_range a = 0 ->
  Axis.source_value hw a <> 0 ->
  Axis.value hw a = (Raise ZeroDivisionError, a) /\
  isinstance_VirtualInput (Axis._source a) = false.
Proof.
  intros Hr Hz Hnz.
  destruct (axis_reachable_inv a Hr) as (Hl & _ & _ & _ & Hd).
  rewrite <- Hd in Hz. split.
  - unfold Axis.source_value in Hnz.
    rewrite axis_value_fresh by congruence.
    rewrite scaled_raises by exact Hz. reflexivity.
  - apply axis_zero_range_peripheral; assumption.
Qed.

Lemma axis_zero_range_read_raises_witness :
  Axis.value (board_reading false 7) axis_flat =
  (Raise ZeroDivisionError, axis_flat) /\
  isinstance_VirtualInput (Axis._source axis_flat) = false.
Proof.
  apply (axis_zero_range_read_raises (board_reading false 7) axis_flat).
  - apply (Axis.reach_init quiet (Some 3%nat) 5 0 10 false). reflexivity.
  - reflexivity.
  - vm_compute. discriminate.
Defined.

(** ** Writes to a source *)

(** X10.  A write to an axis on a pin raises [TypeError] and leaves the axis
    as it was.  A write to a virtual axis succeeds: [source_value] then
    returns the written sample, [0] included, and the configuration and the
    cached value are untouched until the next read. *)
Theorem axis_write_outcome (hw : Board) (v : Z) (a : Axis.t) :
  match Axis._source a with
  | Peripheral _ => Axis.set_source_value v a = (Raise set_error, a)
  | Virtual _ =>
      exists a' : Axis.t,
        Axis.set_source_value v a = (Ok tt, a') /\
        Axis.source_value hw a' = v /\
        axis_config a' = axis_config a /\
        Axis._value a' = Axis._value a
  end.
Proof.
  unfold Axis.set_source_value.
  destruct (Axis._source a) as [p | c] eqn:Es; cbn [isinstance_VirtualInput].
  - reflexivity.
  - eexists. split; [reflexivity |].
    unfold Axis.source_value. cbn. rewrite Es. cbn.
    repeat split; reflexivity.
Qed.

(** X11.  A write to a button on a pin raises [TypeError] and leaves the
    button as it was.  A write to a virtual button succeeds: [source_value]
    then returns the written level, [value] is true exactly when that level
    differs from [active_low], and [active_low] is untouched. *)
Theorem button_write_outcome (hw : Board) (v : bool) (b : Button.t) :
  match Button._source b with
  | Peripheral _ => Button.set_source_value v b = (Raise set_error, b)
  | Virtual _ =>
      exists b' : Button.t,
        Button.set_source_value v b = (Ok tt, b') /\
        Button.source_value hw b' = v /\
        Button.value hw b' = xorb v (Button.active_low b) /\
        Button.active_low b' = Button.active_low b
  end.
Proof.
  unfold Button.set_source_value.
  destruct (Button._source b) as [p | c] eqn:Es; cbn [isinstance_VirtualInput negb].
  - reflexivity.
  - eexists. split; [reflexivity |].
    unfold Button.source_value, Button.value, Button.active_low. cbn.
    rewrite bool_ne_xorb.
    repeat split; try reflexivity. destruct v; reflexivity.
Qed.

(** X12.  A write to a direction of a hat on a pin raises [TypeError] and
    leaves the hat as it was.  A write to a virtual direction succeeds: that
    direction's source value is the written level and it reads pressed
    exactly when the level differs from [active_low], while the sources of
    the three other directions and [active_low] are untouched. *)
Theorem hat_write_outcome (hw : Board) (d : Hat.direction) (v : bool)
  (h : Hat.t) :
  match Hat.source d h with
  | Peripheral _ => Hat.set_source_value d v h = (Raise set_error, h)
  | Virtual _ =>
      exists h' : Hat.t,
        Hat.set_source_value d v h = (Ok tt, h') /\
        Hat.get_source_value d hw h' = v /\
        Hat.pressed d hw h' = xorb v (Hat.active_low h) /\
        Hat.active_low h' = Hat.active_low h /\
        forall d' : Hat.direction,
          d' <> d -> Hat.source d' h' = Hat.source d' h
  end.
Proof.
  destruct d; cbn [Hat.source Hat.set_source_value];
    unfold Hat.set_up_source_value, Hat.set_down_source_value,
      Hat.set_left_source_value, Hat.set_right_source_value;
    match goal with
    | |- match ?s with _ => _ end => destruct s as [p | c] eqn:Es
    end;
    cbn [isinstance_VirtualInput negb]; try reflexivity;
    (eexists; split; [reflexivity |]);
    unfold Hat.get_source_value, Hat.pressed, Hat.up_source_value,
      Hat.down_source_value, Hat.left_source_value, Hat.right_source_value,
      Hat.up, Hat.down, Hat.left, Hat.right, Hat.active_low;
    cbn; rewrite bool_ne_xorb;
    (split; [destruct v; reflexivity |]);
    (split; [reflexivity |]);
    (split; [reflexivity |]);
    intros [] Hne; try reflexivity; contradiction.
Qed.

(** ** Hat: what a position tells *)

(** X13.  The position a hat reports is one of the nine, [0] to [8]; it is
    IDLE exactly when no direction is pressed; it has an up component
    exactly when up is pressed, a down component exactly when down is
    pressed and up is not; and a position with a right or a left component
    is reported only while that direction is pressed. *)
Theorem hat_value_sound (hw : Board) (h : Hat.t) :
  let p := fst (Hat.value hw h) in
  let up := Hat.up hw h in
  let down := Hat.down hw h in
  let left := Hat.left hw h in
  let right := Hat.right hw h in
  0 <= p <= 8 /\
  (p = Hat.IDLE <-> up || down || left || right = false) /\
  (p = Hat.U \/ p = Hat.UR \/ p = Hat.UL <-> up = true) /\
  (p = Hat.D \/ p = Hat.DR \/ p = Hat.DL <-> down && negb up = true) /\
  (p = Hat.R \/ p = Hat.UR \/ p = Hat.DR -> right = true) /\
  (p = Hat.L \/ p = Hat.UL \/ p = Hat.DL -> left = true).
Proof.
  unfold Hat.value. cbv zeta. rewrite hat_update_decode.
  destruct (Hat.up hw h), (Hat.down hw h), (Hat.left hw h),
    (Hat.right hw h); vm_compute; intuition congruence.
Qed.

Lemma hat_update_twice (hw : Board) (h : Hat.t) :
  Hat._update hw (snd (Hat._update hw h)) = Hat._update hw h /\
  Hat._value (snd (Hat._update hw h)) = fst (Hat._update hw h).
Proof.
  unfold Hat._update, Hat.up, Hat.down, Hat.left, Hat.right.
  destruct (bool_ne (digital_value hw (Hat._up h)) (Hat._active_low h)) eqn:Eu,
    (bool_ne (digital_value hw (Hat._down h)) (Hat._active_low h)) eqn:Ed,
    (bool_ne (digital_value hw (Hat._left h)) (Hat._active_low h)) eqn:El,
    (bool_ne (digital_value hw (Hat._right h)) (Hat._active_low h)) eqn:Er;
    cbn [andb snd fst Hat.set__value Hat._up Hat._down Hat._left Hat._right
         Hat._active_low Hat._value];
    rewrite ?Eu, ?Ed, ?El, ?Er; split; reflexivity.
Qed.

(** X14.  Reading a hat twice on the same board gives the same position
    twice, the second read leaves the hat as the first left it, and the
    position returned is the one stored in the hat. *)
Theorem hat_value_idempotent (hw : Board) (h : Hat.t) :
  Hat.value hw (snd (Hat.value hw h)) = Hat.value hw h /\
  Hat._value (snd (Hat.value hw h)) = fst (Hat.value hw h).
Proof. exact (hat_update_twice hw h). Qed.

(** ** What the constructor fixes for good *)

Lemma frame_digital_writable (pin : option Pin) (al : bool)
  (s : DigitalSource) :
  source_frame (_initialize_digital_source pin al) s ->
  isinstance_VirtualInput s = match pin with None => true | Some _ => false end.
Proof.
  destruct pin as [p |]; cbn; intro Hf; [rewrite Hf; reflexivity | exact Hf].
Qed.

Lemma frame_analog_writable (pin : option Pin) (s : AnalogSource) :
  source_frame (_initialize_analog_source pin) s ->
  isinstance_VirtualInput s = match pin with None => true | Some _ => false end.
Proof.
  destruct pin as [p |]; cbn; intro Hf; [rewrite Hf; reflexivity | exact Hf].
Qed.

Lemma hat_frame_source (d : Hat.direction) (h h' : Hat.t) :
  hat_frame h h' -> source_frame (Hat.source d h) (Hat.source d h').
Proof. intros (Hu & Hd & Hl & Hr & _). destruct d; assumption. Qed.

Lemma hat_set_answer (d : Hat.direction) (v : bool) (h : Hat.t) :
  fst (Hat.set_source_value d v h) =
  if isinstance_VirtualInput (Hat.source d h) then Ok tt else Raise set_error.
Proof.
  destruct d; cbn [Hat.source Hat.set_source_value];
    unfold Hat.set_up_source_value, Hat.set_down_source_value,
      Hat.set_left_source_value, Hat.set_right_source_value;
    match goal with
    | |- context [isinstance_VirtualInput ?s] =>
        destruct (isinstance_VirtualInput s)
    end; reflexivity.
Qed.

Lemma hat_init_frame hw up down left right al (d : Hat.direction)
  (trace : list (Board * Hat.call)) :
  source_frame (_initialize_digital_source (pin_of d up down left right) al)
    (Hat.source d
       (snd (run Hat.step trace (Hat.__init__ hw up down left right al)))).
Proof.
  unfold Hat.__init__.
  set (self := Hat.Build_t _ _ _ _ _ _).
  replace (_initialize_digital_source (pin_of d up down left right) al)
    with (Hat.source d self) by (destruct d; reflexivity).
  apply hat_frame_source.
  eapply hat_frame_trans; [apply hat_update_frame | apply hat_run_frame].
Qed.

(** X15.  Whether writes are accepted is fixed by the constructor: however
    many calls have gone by, a write to a button, an axis or a direction of
    a hat succeeds if that input was built without a pin and raises
    [TypeError] if it was built on one. *)
Theorem write_answer_fixed_by_constructor :
  (forall (source : option Pin) (active_low v : bool)
          (trace : list (Board * Button.call)),
      fst (Button.set_source_value v
             (snd (run Button.step trace
                     (Button.__init__ source active_low)))) =
      write_answer source) /\
  (forall (hw : Board) (source : option Pin) (deadband min max v : Z)
          (invert : bool) (trace : list (Board * Axis.call)),
      match Axis.__init__ hw source deadband min max invert with
      | Ok a =>
          fst (Axis.set_source_value v (snd (run Axis.step trace a))) =
          write_answer source
      | Raise _ => True
      end) /\
  (forall (hw : Board) (up down left right : option Pin) (active_low v : bool)
          (d : Hat.direction) (trace : list (Board * Hat.call)),
      fst (Hat.set_source_value d v
             (snd (run Hat.step trace
                     (Hat.__init__ hw up down left right active_low)))) =
      write_answer (pin_of d up down left right)).
Proof.
  split; [| split].
  - intros source al v trace.
    destruct (button_run_frame trace (Button.__init__ source al)) as [Hf _].
    apply frame_digital_writable in Hf.
    unfold Button.set_source_value. rewrite Hf.
    destruct source; reflexivity.
  - intros hw source deadband min max v invert trace.
    pose proof (axis_init_cases hw source deadband min max invert) as Ho.
    cbv zeta in Ho.
    destruct (_ && _); [rewrite Ho; exact I |].
    destruct Ho as (a & Ea & _ & Hs & _). rewrite Ea.
    destruct (axis_run_frame trace a) as [Hf _].
    rewrite Hs in Hf. apply frame_analog_writable in Hf.
    unfold Axis.set_source_value. rewrite Hf.
    destruct source; reflexivity.
  - intros hw up down left right al v d trace.
    pose proof (hat_init_frame hw up down left right al d trace) as Hf.
    apply frame_digital_writable in Hf.
    rewrite hat_set_answer, Hf.
    destruct (pin_of d up down left right); reflexivity.
Qed.

(** X16.  A button built on a pin stays on that pin, an input with pull-up
    when active low and pull-down otherwise, whatever calls go by: its
    source value is the level of the pin and its value is that level
    against [active_low].  An axis built on a pin likewise keeps reading the
    sample of that pin. *)
Theorem pinned_sources_follow_pins (hw : Board) (p : Pin) :
  (forall (active_low : bool) (trace : list (Board * Button.call)),
      let b := snd (run Button.step trace
                      (Button.__init__ (Some p) active_low)) in
      Button._source b =
      Peripheral {| dio_pin := p; direction := INPUT;
                    pull := Some (if active_low then UP else DOWN) |} /\
      Button.source_value hw b = digital_level hw p /\
      Button.value hw b = xorb (digital_level hw p) active_low) /\
  (forall (hw0 : Board) (deadband min max : Z) (invert : bool)
          (trace : list (Board * Axis.call)),
      match Axis.__init__ hw0 (Some p) deadband min max invert with
      | Ok a =>
          Axis._source (snd (run Axis.step trace a)) =
          Peripheral {| ain_pin := p |} /\
          Axis.source_value hw (snd (run Axis.step trace a)) =
          analog_level hw p
      | Raise _ => True
      end).
Proof.
  split.
  - intros al trace b.
    destruct (button_run_frame trace (Button.__init__ (Some p) al))
      as [Hf Ha].
    fold b in Hf, Ha. cbn in Hf, Ha.
    assert (Hs : Button._source b =
                 Peripheral {| dio_pin := p; direction := INPUT;
                               pull := Some (if al then UP else DOWN) |})
      by (rewrite Hf; destruct al; reflexivity).
    split; [exact Hs |].
    unfold Button.source_value, Button.value.
    rewrite Hs, Ha, bool_ne_xorb. cbn.
    split; [destruct (digital_level hw p); reflexivity | reflexivity].
  - intros hw0 deadband min max invert trace.
    pose proof (axis_init_cases hw0 (Some p) deadband min max invert) as Ho.
    cbv zeta in Ho.
    destruct (_ && _); [rewrite Ho; exact I |].
    destruct Ho as (a & Ea & _ & Hs & _). rewrite Ea.
    destruct (axis_run_frame trace a) as [Hf _].
    rewrite Hs in Hf. cbn in Hf.
    unfold Axis.source_value. rewrite Hf. split; reflexivity.
Qed.

(** X17.  A hat built on four pins stays on them, whatever calls go by: each
    direction reads the level of its own pin against [active_low], and the
    position is the decode of those four readings. *)
Theorem pinned_hat_follows_pins (hw0 hw : Board) (u d l r : Pin)
  (active_low : bool) (trace : list (Board * Hat.call)) :
  let h := snd (run Hat.step trace
                  (Hat.__init__ hw0 (Some u) (Some d) (Some l) (Some r)
                     active_low)) in
  Hat.up hw h = xorb (digital_level hw u) active_low /\
  Hat.down hw h = xorb (digital_level hw d) active_low /\
  Hat.left hw h = xorb (digital_level hw l) active_low /\
  Hat.right hw h = xorb (digital_level hw r) active_low /\
  fst (Hat.value hw h) =
  decode (xorb (digital_level hw u) active_low)
         (xorb (digital_level hw d) active_low)
         (xorb (digital_level hw l) active_low)
         (xorb (digital_level hw r) active_low).
Proof.
  intro h.
  pose proof (hat_init_frame hw0 (Some u) (Some d) (Some l) (Some r)
                active_low Hat.Up trace) as Hu.
  pose proof (hat_init_frame hw0 (Some u) (Some d) (Some l) (Some r)
                active_low Hat.Down trace) as Hd.
  pose proof (hat_init_frame hw0 (Some u) (Some d) (Some l) (Some r)
                active_low Hat.Left trace) as Hl.
  pose proof (hat_init_frame hw0 (Some u) (Some d) (Some l) (Some r)
                active_low Hat.Right trace) as Hr.
  assert (Ha : Hat._active_low h = active_low).
  { subst h. unfold Hat.__init__.
    set (self := Hat.Build_t _ _ _ _ _ _).
    destruct (hat_frame_trans _ _ _ (hat_update_frame hw0 self)
                (hat_run_frame trace (snd (Hat._update hw0 self))))
      as (_ & _ & _ & _ & E).
    exact E. }
  fold h in Hu, Hd, Hl, Hr. cbn in Hu, Hd, Hl, Hr.
  assert (Eu : Hat.up hw h = xorb (digital_level hw u) active_low).
  { unfold Hat.up. rewrite Hu, Ha, bool_ne_xorb.
    destruct active_low; reflexivity. }
  assert (Ed : Hat.down hw h = xorb (digital_level hw d) active_low).
  { unfold Hat.down. rewrite Hd, Ha, bool_ne_xorb.
    destruct active_low; reflexivity. }
  assert (El : Hat.left hw h = xorb (digital_level hw l) active_low).
  { unfold Hat.left. rewrite Hl, Ha, bool_ne_xorb.
    destruct active_low; reflexivity. }
  assert (Er : Hat.right hw h = xorb (digital_level hw r) active_low).
  { unfold Hat.right. rewrite Hr, Ha, bool_ne_xorb.
    destruct active_low; reflexivity. }
  repeat (split; [assumption |]).
  unfold Hat.value. rewrite hat_update_decode, Eu, Ed, El, Er. reflexivity.
Qed.

(** ** Axis: reads at a sample other than 0 *)

(** X18.  A read at a sample other than [0], on an axis whose scale range is
    not [0], returns the clamp, deadband and linear-map computation applied
    to that very sample: the sample clamped to [min, max], shifted by the
    branch it falls in, times 255 over the scale range less 127, clamped to
    [-127, 127] and given the inversion sign. *)
Theorem axis_value_is_scaling (hw : Board) (a : Axis.t) :
  Axis.reachable a ->
  scale_range a <> 0 ->
  Axis.source_value hw a <> 0 ->
  exists v,
    fst (Axis.value hw a) = Ok v /\
    scaling (Axis.min a) (Axis.max a) (Axis.deadband a) (sign_of a)
      (Axis.source_value hw a) = Some v.
Proof. exact (axis_value_nonzero_scaling hw a). Qed.

Lemma axis_value_is_scaling_witness :
  exists v,
    fst (Axis.value quiet (written axis_default 40000)) = Ok v /\
    scaling 0 65535 0 1 40000 = Some v.
Proof.
  apply (axis_value_is_scaling quiet (written axis_default 40000)).
  - apply axis_written_reachable, axis_default_reachable.
  - vm_compute. discriminate.
  - vm_compute. discriminate.
Defined.

(** X19.  A sample other than [0] written to a virtual axis shows in the
    next read, which returns the scaling of the written sample whatever the
    axis read before. *)
Theorem axis_written_sample_is_read (hw : Board) (a : Axis.t) (v : Z) :
  Axis.reachable a ->
  isinstance_VirtualInput (Axis._source a) = true ->
  scale_range a <> 0 ->
  v <> 0 ->
  exists x,
    fst (Axis.value hw (snd (Axis.set_source_value v a))) = Ok x /\
    scaling (Axis.min a) (Axis.max a) (Axis.deadband a) (sign_of a) v = Some x.
Proof. exact (axis_write_nonzero_visible hw a v). Qed.

Lemma axis_written_sample_is_read_witness :
  exists x,
    fst (Axis.value quiet (snd (Axis.set_source_value 2 axis_narrow))) = Ok x /\
    scaling (Axis.min axis_narrow) (Axis.max axis_narrow)
      (Axis.deadband axis_narrow) (sign_of axis_narrow) 2 = Some x.
Proof.
  apply (axis_written_sample_is_read quiet axis_narrow 2).
  - exact (Axis.reach_init quiet _ _ _ _ _ _ (axis_narrow_init quiet)).
  - reflexivity.
  - vm_compute. discriminate.
  - discriminate.
Defined.
